(** * exam-api: recipe store and city gateway handlers

    A shallow embedding of the three revisions of [index.js] found in the
    repository ([src/index.js] and two unnamed revisions of the same file),
    and the properties of the recipe store and of the three HTTP handlers.

    Conventions of the embedding.
    - A JavaScript string is a [string]; one [ascii] stands for one UTF-16
      code unit, so [String.length] is the [.length] of the text.
    - A JavaScript number is a [JsNum]: [NaN], the two infinities, an
      integer or a finite non-integer, with its exact value. Number
      arithmetic is exact on integers up to 2^53; the only arithmetic of the
      program is the [++] of the id counter, which is carried as [Z] (the
      embedding covers the runs with fewer than 2^53 recipes created). The
      digits that the engine prints or reads beyond the exact integers
      belong to the [Host].
    - An expression that may throw evaluates to an [option]; [None] is the
      thrown exception (the handlers never look at the exception itself).
    - A handler is a [Prog]: a tree of upstream fetches and store calls,
      run by [run] against the list of the upstream's answers. *)

From Stdlib Require Import ZArith QArith List Sorted String Ascii Bool Lia.
From Stdlib Require Import Decimal DecimalString DecimalPos DecimalZ.
Import ListNotations.
Set Warnings "-register-all".
Open Scope string_scope.
Open Scope Z_scope.

(** ** JavaScript values *)

Inductive JsNum : Type :=
| NaN
| PosInf
| NegInf
| Int (z : Z)
| Frac (q : Q).   (* a finite number that is not an integer *)

(** Values that [JSON.parse] produces, and [undefined]. An object is the
    list of its own properties. *)
Inductive JsVal : Type :=
| JUndefined
| JNull
| JBool (b : bool)
| JNum (n : JsNum)
| JStr (s : string)
| JArr (items : list JsVal)
| JObj (props : list (string * JsVal)).

Fixpoint assoc (key : string) (props : list (string * JsVal)) : option JsVal :=
  match props with
  | [] => None
  | (k, v) :: rest => if (k =? key)%string then Some v else assoc key rest
  end.

Definition hasOwn (key : string) (props : list (string * JsVal)) : bool :=
  match assoc key props with Some _ => true | None => false end.

(** [ToBoolean]: the test behind [!x], [if (x)] and [||]. *)
Definition ToBoolean (v : JsVal) : bool :=
  match v with
  | JUndefined | JNull => false
  | JBool b => b
  | JNum NaN => false
  | JNum (Int z) => negb (z =? 0)
  | JNum (Frac q) => negb (Qeq_bool q 0)
  | JNum _ => true
  | JStr s => negb (s =? "")%string
  | JArr _ | JObj _ => true
  end.

Definition isNumber (v : JsVal) : bool :=      (* typeof v === 'number' *)
  match v with JNum _ => true | _ => false end.

Definition isArray (v : JsVal) : bool :=       (* Array.isArray(v) *)
  match v with JArr _ => true | _ => false end.

Definition isInteger (v : JsVal) : bool :=     (* Number.isInteger(v) *)
  match v with JNum (Int _) => true | _ => false end.

(** ** Decimal text of an integer, and [parseInt] *)

(** [String(n)] for an integer [n] of magnitude at most 2^53. *)
Definition Z_to_string (z : Z) : string := NilZero.string_of_int (Z.to_int z).

Definition nat_to_string (n : nat) : string := Z_to_string (Z.of_nat n).

Definition char_code (c : ascii) : Z := Z.of_N (N_of_ascii c).

(** White space and line terminators that [parseInt] skips (those below
    256: TAB, LF, VT, FF, CR, SP, NBSP). *)
Definition isWhiteSpace (c : ascii) : bool :=
  let n := char_code c in
  ((9 <=? n) && (n <=? 13)) || (n =? 32) || (n =? 160).

Definition digit_value (c : ascii) : option Z :=
  let n := char_code c in
  if (48 <=? n) && (n <=? 57) then Some (n - 48)
  else if (97 <=? n) && (n <=? 122) then Some (n - 87)
  else if (65 <=? n) && (n <=? 90) then Some (n - 55)
  else None.

Fixpoint skip_ws (s : string) : string :=
  match s with
  | String c rest => if isWhiteSpace c then skip_ws rest else s
  | EmptyString => s
  end.

(** The longest prefix of radix-[R] digits, read most significant first;
    [acc] is [None] until a digit has been read. *)
Fixpoint parse_digits (R : Z) (s : string) (acc : option Z) : option Z :=
  match s with
  | EmptyString => acc
  | String c rest =>
      match digit_value c with
      | Some d =>
          if d <? R
          then parse_digits R rest
                 (Some (match acc with Some a => a * R + d | None => d end))
          else acc
      | None => acc
      end
  end.

(** [parseInt(s)] with no radix argument: leading white space, a sign, a
    [0x] prefix for radix 16, then the longest prefix of digits; [NaN] when
    there is no digit. The result is the exact integer (the engine rounds a
    value beyond 2^53 to the nearest number, which no id below 2^53 equals). *)
Definition parseInt_string (s : string) : JsNum :=
  let s1 := skip_ws s in
  let '(sign, s2) :=
    match s1 with
    | String "-"%char rest => (-1, rest)
    | String "+"%char rest => (1, rest)
    | _ => (1, s1)
    end in
  let '(R, s3) :=
    match s2 with
    | String "0"%char (String "x"%char rest) => (16, rest)
    | String "0"%char (String "X"%char rest) => (16, rest)
    | _ => (10, s2)
    end in
  match parse_digits R s3 None with
  | Some m => Int (sign * m)
  | None => NaN
  end.

(** ** The host: the engine's number/text conversions and the process
    environment. Both are outside the program. *)

Class Host : Type := {
  (* process.env.API_KEY; [None] when the variable is not set *)
  API_KEY : option string;
  (* ToNumber applied to a string *)
  StringToNumber : string -> JsNum;
  (* Number::toString of a finite number outside the exact integers *)
  NumberToString_inexact : JsNum -> string;
  (* that text starts with an optional minus sign and a decimal digit *)
  NumberToString_inexact_digit :
    forall n, exists z, parseInt_string (NumberToString_inexact n) = Int z
}.

Section Conversions.
Context {host : Host}.

Definition TWO_53 : Z := 9007199254740992.

Definition NumberToString (n : JsNum) : string :=
  match n with
  | NaN => "NaN"
  | PosInf => "Infinity"
  | NegInf => "-Infinity"
  | Int z => if Z.abs z <=? TWO_53 then Z_to_string z else NumberToString_inexact n
  | Frac _ => NumberToString_inexact n
  end.

(** [ToString] (and [String(v)], and [${v}] in a template literal).
    For an object the conversion calls its [toString], then its [valueOf],
    and throws a TypeError when neither gives a primitive. The own
    properties of a parsed object are data, never functions: an own property
    named [toString] hides [Object.prototype.toString] and is not callable,
    [valueOf] gives the object back, so the conversion throws; without it
    [Object.prototype.toString] answers "[object Object]". An array is
    joined with commas, [null] and [undefined] items giving the empty
    text. *)
Fixpoint ToString (v : JsVal) : option string :=
  match v with
  | JUndefined => Some "undefined"
  | JNull => Some "null"
  | JBool true => Some "true"
  | JBool false => Some "false"
  | JNum n => Some (NumberToString n)
  | JStr s => Some s
  | JObj props => if hasOwn "toString" props then None else Some "[object Object]"
  | JArr items =>
      let item (x : JsVal) : option string :=
        match x with
        | JUndefined | JNull => Some ""
        | _ => ToString x
        end in
      (fix join (l : list JsVal) : option string :=
         match l with
         | [] => Some ""
         | [x] => item x
         | x :: rest =>
             match item x with
             | Some s =>
                 match join rest with
                 | Some t => Some (s ++ "," ++ t)
                 | None => None
                 end
             | None => None
             end
         end) items
  end.

(** [ToNumber] (and [Number(v)]): objects go through their text. *)
Definition ToNumber (v : JsVal) : option JsNum :=
  match v with
  | JUndefined => Some NaN
  | JNull => Some (Int 0)
  | JBool b => Some (Int (if b then 1 else 0))
  | JNum n => Some n
  | JStr s => Some (StringToNumber s)
  | JArr _ | JObj _ => option_map StringToNumber (ToString v)
  end.

(** [parseInt(v)]: the argument is converted to text first. *)
Definition parseInt (v : JsVal) : option JsNum :=
  option_map parseInt_string (ToString v).

Definition num_lt (n : JsNum) (k : Z) : bool :=
  match n with
  | NaN | PosInf => false
  | NegInf => true
  | Int z => z <? k
  | Frac q => negb (Qle_bool (inject_Z k) q)
  end.

Definition num_gt (n : JsNum) (k : Z) : bool :=
  match n with
  | NaN | NegInf => false
  | PosInf => true
  | Int z => k <? z
  | Frac q => negb (Qle_bool q (inject_Z k))
  end.

(** [v < k] and [v > k] against a number literal [k]. *)
Definition js_lt (v : JsVal) (k : Z) : option bool :=
  option_map (fun n => num_lt n k) (ToNumber v).

Definition js_gt (v : JsVal) (k : Z) : option bool :=
  option_map (fun n => num_gt n k) (ToNumber v).

(** Property read [v.key], for the property names the program reads
    ([coordinates], [population], [knownFor], [today], [tomorrow], [min],
    [max], [latitude], [longitude], [predictions], [cityId], [when],
    [length]), none of which is inherited from a prototype except [length]
    of texts and arrays. Reading a property of [null] or [undefined] throws. *)
Definition Get (v : JsVal) (key : string) : option JsVal :=
  match v with
  | JUndefined | JNull => None
  | JObj props =>
      Some (match assoc key props with Some x => x | None => JUndefined end)
  | JStr s =>
      Some (if (key =? "length")%string
            then JNum (Int (Z.of_nat (String.length s))) else JUndefined)
  | JArr items =>
      Some (if (key =? "length")%string
            then JNum (Int (Z.of_nat (List.length items))) else JUndefined)
  | JBool _ | JNum _ => Some JUndefined
  end.

(** Indexed read [v[i]]. *)
Definition GetIndex (v : JsVal) (i : nat) : option JsVal :=
  match v with
  | JUndefined | JNull => None
  | JArr items => Some (nth i items JUndefined)
  | JStr s =>
      Some (match String.get i s with
            | Some c => JStr (String c EmptyString)
            | None => JUndefined
            end)
  | JObj props =>
      Some (match assoc (nat_to_string i) props with
            | Some x => x
            | None => JUndefined
            end)
  | JBool _ | JNum _ => Some JUndefined
  end.

End Conversions.

(** ** The recipe store ([recipeStorage]) *)

Module Recipe.
Record t : Type := make { id : Z; content : JsVal; cityId : string }.
End Recipe.
Abbreviation Recipe := Recipe.t.

Record Store : Type := mkStore { recipes : list Recipe; lastId : Z }.

Fixpoint findIndex {A : Type} (p : A -> bool) (l : list A) : option nat :=
  match l with
  | [] => None
  | x :: rest => if p x then Some O else option_map S (findIndex p rest)
  end.

(** [l.splice(i, 1)] *)
Definition splice1 {A : Type} (i : nat) (l : list A) : list A :=
  firstn i l ++ skipn (S i) l.

Module recipeStorage.

Definition initial : Store := {| recipes := []; lastId := 0 |}.

Definition add (cityId : string) (content : JsVal) (this : Store)
  : Recipe * Store :=
  let id := lastId this + 1 in
  let recipe := Recipe.make id content cityId in
  (recipe, {| recipes := recipes this ++ [recipe]; lastId := id |}).

(** [recipe.id === parseInt(id)]; the handlers pass the path parameter, a
    text. [NaN] is equal to nothing. *)
Definition idMatches (id : string) (recipe : Recipe) : bool :=
  match parseInt_string id with
  | Int n => Recipe.id recipe =? n
  | _ => false
  end.

Definition getById (id : string) (this : Store) : option Recipe :=
  find (idMatches id) (recipes this).

Definition getByCityId (cityId : string) (this : Store) : list Recipe :=
  filter (fun recipe => (Recipe.cityId recipe =? cityId)%string)
         (recipes this).

Definition deleteById (id : string) (this : Store) : bool * Store :=
  match findIndex (idMatches id) (recipes this) with
  | Some index =>
      (true, {| recipes := splice1 index (recipes this);
                lastId := lastId this |})
  | None => (false, this)
  end.

End recipeStorage.

(** ** Handlers as programs

    An [async] handler is a tree: it returns, throws, awaits an upstream
    [fetch] and goes on with the answer, or calls a method of the store. *)

Record Response : Type := mkResponse {
  status : Z;
  json : option JsVal   (* result of [.json()]; [None] when it rejects *)
}.

Definition ok (r : Response) : bool := (200 <=? status r) && (status r <=? 299).

Inductive Prog (A : Type) : Type :=
| Ret (a : A)
| Throw
| Await (url : string) (k : option Response -> Prog A)
| Storage (B : Type) (method : Store -> B * Store) (k : B -> Prog A).

Arguments Ret {A} a.
Arguments Throw {A}.
Arguments Await {A} url k.
Arguments Storage {A B} method k.

Fixpoint bind {A B : Type} (p : Prog A) (f : A -> Prog B) : Prog B :=
  match p with
  | Ret a => f a
  | Throw => Throw
  | Await url k => Await url (fun r => bind (k r) f)
  | Storage method k => Storage method (fun b => bind (k b) f)
  end.

(** [try { p } catch (err) { handler }] *)
Fixpoint try_catch {A : Type} (p : Prog A) (handler : Prog A) : Prog A :=
  match p with
  | Ret a => Ret a
  | Throw => handler
  | Await url k => Await url (fun r => try_catch (k r) handler)
  | Storage method k => Storage method (fun b => try_catch (k b) handler)
  end.

Declare Scope prog_scope.
Delimit Scope prog_scope with prog.
Notation "x <- p ;; q" := (bind p (fun x => q))
  (at level 61, p at next level, right associativity) : prog_scope.
Open Scope prog_scope.

(** An expression that may throw. *)
Definition eval {A : Type} (e : option A) : Prog A :=
  match e with Some a => Ret a | None => Throw end.

(** [await fetch(url)]: a network failure rejects. *)
Definition fetch (url : string) : Prog Response :=
  Await url (fun r => match r with Some resp => Ret resp | None => Throw end).

(** [await response.json()] *)
Definition read_json (r : Response) : Prog JsVal := eval (json r).

(** One request served alone. [upstream] lists the answers to the
    successive fetches ([None]: the fetch rejects); past its end every fetch
    rejects. The run gives what the handler produced ([None] when the
    exception escaped it), the store afterwards and the URLs fetched. *)
Record Run (A : Type) : Type := mkRun {
  outcome : option A;
  store : Store;
  calls : list string
}.

Arguments mkRun {A} outcome store calls.
Arguments outcome {A} r.
Arguments store {A} r.
Arguments calls {A} r.

(** A run that fetched [url] first and then went on as [r]. *)
Definition after_fetch {A : Type} (url : string) (r : Run A) : Run A :=
  mkRun (outcome r) (store r) (url :: calls r).

Fixpoint run {A : Type} (upstream : list (option Response))
  (p : Prog A) (s : Store) : Run A :=
  match p with
  | Ret a => mkRun (Some a) s []
  | Throw => mkRun None s []
  | Await url k => after_fetch url (run (tl upstream) (k (hd None upstream)) s)
  | Storage method k =>
      let '(b, s') := method s in run upstream (k b) s'
  end.

(** [reply.code(c).send(body)]; [return doc] from a handler is code 200. *)
Record Reply : Type := mkReply { code : Z; body : option JsVal }.

Definition error (message : string) : option JsVal :=
  Some (JObj [("error", JStr message)]).

Definition internal_error : Prog Reply :=
  Ret (mkReply 500 (error "Internal server error")).

(** Traversal of an array by [.map(f)] with a callback that may throw. *)
Fixpoint map_throwing {A B : Type} (f : A -> option B) (l : list A)
  : option (list B) :=
  match l with
  | [] => Some []
  | x :: rest =>
      match f x with
      | Some y => option_map (cons y) (map_throwing f rest)
      | None => None
      end
  end.

(** ** The recipe handlers

    The three revisions differ in the URL of the city lookup only, which is
    the parameter [cityUrl]. *)

Section RecipeHandlers.
Context {host : Host}.

(** [${API_KEY}] inside a template literal *)
Definition API_KEY_text : string :=
  match API_KEY with Some key => key | None => "undefined" end.

Definition call {B : Type} (method : Store -> B * Store) : Prog B :=
  Storage method Ret.

(** The common opening of the three handlers' [try] blocks. *)
Definition city_lookup (url : string) (found : Response -> Prog Reply)
  : Prog Reply :=
  cityResponse <- fetch url ;;
  if negb (ok cityResponse)
  then (if status cityResponse =? 404
        then Ret (mkReply 404 (error "City not found"))
        else Throw)
  else found cityResponse.

Definition recipe_json (recipe : Recipe) : JsVal :=
  JObj [("id", JNum (Int (Recipe.id recipe)));
        ("content", Recipe.content recipe)].

(** [const { content } = request.body || {}] *)
Definition body_content (body : JsVal) : option JsVal :=
  Get (if ToBoolean body then body else JObj []) "content".

(** [content.length < 10] and [content.length > 2000] *)
Definition too_short (content : JsVal) : option bool :=
  match Get content "length" with
  | Some len => js_lt len 10
  | None => None
  end.

Definition too_long (content : JsVal) : option bool :=
  match Get content "length" with
  | Some len => js_gt len 2000
  | None => None
  end.

Definition required_message := "Content is required".
Definition too_short_message := "Content is too short (minimum 10 characters)".
Definition too_long_message := "Content is too long (maximum 2000 characters)".

(** POST /cities/:cityId/recipes; [body] is [request.body]. *)
Definition post_recipes (cityUrl : string -> string)
  (cityId : string) (body : JsVal) : Prog Reply :=
  content <- eval (body_content body) ;;
  if negb (ToBoolean content)
  then Ret (mkReply 400 (error required_message))
  else
    tooShort <- eval (too_short content) ;;
    if tooShort
    then Ret (mkReply 400 (error too_short_message))
    else
      tooLong <- eval (too_long content) ;;
      if tooLong
      then Ret (mkReply 400 (error too_long_message))
      else
        try_catch
          (city_lookup (cityUrl cityId) (fun _ =>
             recipe <- call (recipeStorage.add cityId content) ;;
             Ret (mkReply 201 (Some (recipe_json recipe)))))
          internal_error.

(** DELETE /cities/:cityId/recipes/:recipeId *)
Definition delete_recipe (cityUrl : string -> string)
  (cityId recipeId : string) : Prog Reply :=
  try_catch
    (city_lookup (cityUrl cityId) (fun _ =>
       recipe <- call (fun this => (recipeStorage.getById recipeId this, this)) ;;
       match recipe with
       | None => Ret (mkReply 404 (error "Recipe not found"))
       | Some recipe =>
           if negb (Recipe.cityId recipe =? cityId)%string
           then Ret (mkReply 404 (error "Recipe not found for this city"))
           else
             _ <- call (recipeStorage.deleteById recipeId) ;;
             Ret (mkReply 204 None)
       end))
    internal_error.

Definition prediction (when : string) (min max : JsVal) : JsVal :=
  JObj [("when", JStr when); ("min", min); ("max", max)].

Definition infos (coordinates population knownFor : JsVal)
  (today tomorrow : JsVal) (recipes : list JsVal) : JsVal :=
  JObj [("coordinates", coordinates);
        ("population", population);
        ("knownFor", knownFor);
        ("weatherPredictions", JArr [today; tomorrow]);
        ("recipes", JArr recipes)].

(** [recipe => ({ id: parseInt(recipe.id), content: String(recipe.content) })] *)
Definition recipe_json_coerced (recipe : Recipe) : option JsVal :=
  match parseInt (JNum (Int (Recipe.id recipe))),
        ToString (Recipe.content recipe) with
  | Some id, Some content => Some (JObj [("id", JNum id); ("content", JStr content)])
  | _, _ => None
  end.

(** [knownFor.map(String)]; a value that is not an array has no [map]. *)
Definition map_String (knownFor : JsVal) : option JsVal :=
  match knownFor with
  | JArr items => option_map (fun l => JArr (map JStr l)) (map_throwing ToString items)
  | _ => None
  end.

Definition number (v : JsVal) : option JsVal := option_map JNum (ToNumber v).

End RecipeHandlers.

(** ** [src/index.js] *)

Module IndexJs.
Section Handlers.
Context {host : Host}.

Definition CITY_API_BASE_URL := "https://api-ugi2pflmha-ew.a.run.app/city".
Definition WEATHER_API_BASE_URL := "https://api-ugi2pflmha-ew.a.run.app/weather".

Definition cityUrl (cityId : string) : string :=
  CITY_API_BASE_URL ++ "/" ++ cityId ++ "?apiKey=" ++ API_KEY_text.

Definition weatherUrl (lat lon : string) : string :=
  WEATHER_API_BASE_URL ++ "?lat=" ++ lat ++ "&lon=" ++ lon
    ++ "&apiKey=" ++ API_KEY_text.

(** GET /cities/:cityId/infos *)
Definition get_infos (cityId : string) : Prog Reply :=
  try_catch
    (city_lookup (cityUrl cityId) (fun cityResponse =>
       cityData <- read_json cityResponse ;;
       coordinates <- eval (Get cityData "coordinates") ;;
       c0 <- eval (GetIndex coordinates 0) ;;
       lat <- eval (ToString c0) ;;
       c1 <- eval (GetIndex coordinates 1) ;;
       lon <- eval (ToString c1) ;;
       weatherResponse <- fetch (weatherUrl lat lon) ;;
       if negb (ok weatherResponse) then Throw
       else
         weatherData <- read_json weatherResponse ;;
         recipes <- call (fun this => (recipeStorage.getByCityId cityId this, this)) ;;
         population <- eval (Get cityData "population") ;;
         knownFor <- eval (Get cityData "knownFor") ;;
         today <- eval (Get weatherData "today") ;;
         todayMin <- eval (Get today "min") ;;
         todayMax <- eval (Get today "max") ;;
         tomorrow <- eval (Get weatherData "tomorrow") ;;
         tomorrowMin <- eval (Get tomorrow "min") ;;
         tomorrowMax <- eval (Get tomorrow "max") ;;
         Ret (mkReply 200 (Some
           (infos coordinates population knownFor
              (prediction "today" todayMin todayMax)
              (prediction "tomorrow" tomorrowMin tomorrowMax)
              (map recipe_json recipes))))))
    internal_error.

Definition post_recipes := post_recipes cityUrl.
Definition delete_recipe := delete_recipe cityUrl.

End Handlers.
End IndexJs.

(** ** The revision with validation, coordinates as a two-element array
    ([src/unnamed/part_001]) *)

Module Part001.
Section Handlers.
Context {host : Host}.

Definition CITY_API_BASE_URL := "https://api-ugi2pflmha-ew.a.run.app/cities".
Definition WEATHER_API_BASE_URL := "https://api-ugi2pflmha-ew.a.run.app/weather".

Definition insightsUrl (cityId : string) : string :=
  CITY_API_BASE_URL ++ "/" ++ cityId ++ "/insights?apiKey=" ++ API_KEY_text.

Definition cityUrl (cityId : string) : string :=
  CITY_API_BASE_URL ++ "/" ++ cityId ++ "?apiKey=" ++ API_KEY_text.

Definition weatherUrl (lat lon : string) : string :=
  WEATHER_API_BASE_URL ++ "?lat=" ++ lat ++ "&lon=" ++ lon
    ++ "&apiKey=" ++ API_KEY_text.

(** The condition of the first [throw]:
    [!Array.isArray(c) || c.length !== 2 || typeof c[0] !== 'number'
      || typeof c[1] !== 'number'] *)
Definition invalid_coordinates (coordinates : JsVal) : bool :=
  match coordinates with
  | JArr items =>
      negb (Z.of_nat (List.length items) =? 2)
      || negb (isNumber (nth 0 items JUndefined))
      || negb (isNumber (nth 1 items JUndefined))
  | _ => true
  end.

Definition invalid_population (population : JsVal) : bool :=
  negb (isNumber population) || negb (isInteger population).

Definition invalid_knownFor (knownFor : JsVal) : bool :=
  negb (isArray knownFor).

(** "Validate city data format": the three guarded [throw]s. *)
Definition validate_city (cityData : JsVal) : Prog unit :=
  coordinates <- eval (Get cityData "coordinates") ;;
  if invalid_coordinates coordinates then Throw
  else
    population <- eval (Get cityData "population") ;;
    if invalid_population population then Throw
    else
      knownFor <- eval (Get cityData "knownFor") ;;
      if invalid_knownFor knownFor then Throw else Ret tt.

(** "Validate weather data format" *)
Definition validate_weather (weatherData : JsVal) : Prog unit :=
  today <- eval (Get weatherData "today") ;;
  if negb (ToBoolean today) then Throw
  else
    tomorrow <- eval (Get weatherData "tomorrow") ;;
    if negb (ToBoolean tomorrow) then Throw
    else
      todayMin <- eval (Get today "min") ;;
      todayMax <- eval (Get today "max") ;;
      tomorrowMin <- eval (Get tomorrow "min") ;;
      tomorrowMax <- eval (Get tomorrow "max") ;;
      if negb (isNumber todayMin) || negb (isNumber todayMax)
         || negb (isNumber tomorrowMin) || negb (isNumber tomorrowMax)
      then Throw else Ret tt.

(** "Format response according to requirements" *)
Definition format_response (cityData weatherData : JsVal)
  (recipes : list JsVal) : Prog JsVal :=
  coordinates <- eval (Get cityData "coordinates") ;;
  c0 <- eval (GetIndex coordinates 0) ;;
  lat <- eval (number c0) ;;
  c1 <- eval (GetIndex coordinates 1) ;;
  lon <- eval (number c1) ;;
  population <- eval (Get cityData "population") ;;
  population' <- eval (parseInt population) ;;
  knownFor <- eval (Get cityData "knownFor") ;;
  knownFor' <- eval (map_String knownFor) ;;
  today <- eval (Get weatherData "today") ;;
  todayMin <- eval (Get today "min") ;;
  todayMin' <- eval (number todayMin) ;;
  todayMax <- eval (Get today "max") ;;
  todayMax' <- eval (number todayMax) ;;
  tomorrow <- eval (Get weatherData "tomorrow") ;;
  tomorrowMin <- eval (Get tomorrow "min") ;;
  tomorrowMin' <- eval (number tomorrowMin) ;;
  tomorrowMax <- eval (Get tomorrow "max") ;;
  tomorrowMax' <- eval (number tomorrowMax) ;;
  Ret (infos (JArr [lat; lon]) (JNum population') knownFor'
         (prediction "today" todayMin' todayMax')
         (prediction "tomorrow" tomorrowMin' tomorrowMax')
         recipes).

(** GET /cities/:cityId/infos *)
Definition get_infos (cityId : string) : Prog Reply :=
  try_catch
    (city_lookup (insightsUrl cityId) (fun cityResponse =>
       cityData <- read_json cityResponse ;;
       _ <- validate_city cityData ;;
       coordinates <- eval (Get cityData "coordinates") ;;
       c0 <- eval (GetIndex coordinates 0) ;;
       lat <- eval (ToString c0) ;;
       c1 <- eval (GetIndex coordinates 1) ;;
       lon <- eval (ToString c1) ;;
       weatherResponse <- fetch (weatherUrl lat lon) ;;
       if negb (ok weatherResponse) then Throw
       else
         weatherData <- read_json weatherResponse ;;
         _ <- validate_weather weatherData ;;
         stored <- call (fun this => (recipeStorage.getByCityId cityId this, this)) ;;
         recipes <- eval (map_throwing recipe_json_coerced stored) ;;
         response <- format_response cityData weatherData recipes ;;
         Ret (mkReply 200 (Some response))))
    internal_error.

Definition post_recipes := post_recipes cityUrl.
Definition delete_recipe := delete_recipe cityUrl.

End Handlers.
End Part001.

(** ** The revision with validation, coordinates as a latitude/longitude
    object and the weather looked up by city ([src/unnamed/part_000]) *)

(** [l.find(p)] with a callback that may throw. *)
Fixpoint find_throwing {A : Type} (p : A -> option bool) (l : list A)
  : option (option A) :=
  match l with
  | [] => Some None
  | x :: rest =>
      match p x with
      | Some true => Some (Some x)
      | Some false => find_throwing p rest
      | None => None
      end
  end.

(** [v.key === text] *)
Definition property_is (key text : string) (v : JsVal) : option bool :=
  match Get v key with
  | Some (JStr s) => Some (s =? text)%string
  | Some _ => Some false
  | None => None
  end.

(** [v.find(callback)]: only an array has a [find] to call. The result is
    [undefined] when nothing matches. *)
Definition js_find (p : JsVal -> option bool) (v : JsVal) : option JsVal :=
  match v with
  | JArr items =>
      option_map (fun r => match r with Some x => x | None => JUndefined end)
                 (find_throwing p items)
  | _ => None
  end.

Module Part000.
Section Handlers.
Context {host : Host}.

Definition CITY_API_BASE_URL := "https://api-ugi2pflmha-ew.a.run.app/cities".
Definition WEATHER_API_BASE_URL :=
  "https://api-ugi2pflmha-ew.a.run.app/weather-predictions".

Definition cityUrl (cityId : string) : string :=
  CITY_API_BASE_URL ++ "/" ++ cityId ++ "/insights?apiKey=" ++ API_KEY_text.

Definition weatherUrl (lat lon : string) : string :=
  WEATHER_API_BASE_URL ++ "?lat=" ++ lat ++ "&lon=" ++ lon
    ++ "&apiKey=" ++ API_KEY_text.

Definition validate_city (cityData : JsVal) : Prog unit :=
  coordinates <- eval (Get cityData "coordinates") ;;
  if negb (ToBoolean coordinates) then Throw
  else
    latitude <- eval (Get coordinates "latitude") ;;
    longitude <- eval (Get coordinates "longitude") ;;
    if negb (isNumber latitude) || negb (isNumber longitude) then Throw
    else
      population <- eval (Get cityData "population") ;;
      if negb (isNumber population) || negb (isInteger population) then Throw
      else
        knownFor <- eval (Get cityData "knownFor") ;;
        if negb (isArray knownFor) then Throw else Ret tt.

(** "Find weather for this city", then today's and tomorrow's predictions. *)
Definition find_predictions (weatherDataArray : JsVal) (cityId : string)
  : Prog (JsVal * JsVal) :=
  weatherData <- eval (js_find (property_is "cityId" cityId) weatherDataArray) ;;
  if negb (ToBoolean weatherData) then Throw
  else
    predictions <- eval (Get weatherData "predictions") ;;
    if negb (ToBoolean predictions) then Throw
    else
      len <- eval (Get predictions "length") ;;
      few <- eval (js_lt len 2) ;;
      if few then Throw
      else
        todayPrediction <- eval (js_find (property_is "when" "today") predictions) ;;
        tomorrowPrediction <- eval (js_find (property_is "when" "tomorrow") predictions) ;;
        if negb (ToBoolean todayPrediction) || negb (ToBoolean tomorrowPrediction)
        then Throw
        else Ret (todayPrediction, tomorrowPrediction).

Definition format_response (cityData todayPrediction tomorrowPrediction : JsVal)
  (recipes : list JsVal) : Prog JsVal :=
  coordinates <- eval (Get cityData "coordinates") ;;
  latitude <- eval (Get coordinates "latitude") ;;
  lat <- eval (number latitude) ;;
  longitude <- eval (Get coordinates "longitude") ;;
  lon <- eval (number longitude) ;;
  population <- eval (Get cityData "population") ;;
  population' <- eval (parseInt population) ;;
  knownFor <- eval (Get cityData "knownFor") ;;
  knownFor' <- eval (map_String knownFor) ;;
  todayMin <- eval (Get todayPrediction "min") ;;
  todayMin' <- eval (number todayMin) ;;
  todayMax <- eval (Get todayPrediction "max") ;;
  todayMax' <- eval (number todayMax) ;;
  tomorrowMin <- eval (Get tomorrowPrediction "min") ;;
  tomorrowMin' <- eval (number tomorrowMin) ;;
  tomorrowMax <- eval (Get tomorrowPrediction "max") ;;
  tomorrowMax' <- eval (number tomorrowMax) ;;
  Ret (infos (JArr [lat; lon]) (JNum population') knownFor'
         (prediction "today" todayMin' todayMax')
         (prediction "tomorrow" tomorrowMin' tomorrowMax')
         recipes).

(** GET /cities/:cityId/infos *)
Definition get_infos (cityId : string) : Prog Reply :=
  try_catch
    (city_lookup (cityUrl cityId) (fun cityResponse =>
       cityData <- read_json cityResponse ;;
       _ <- validate_city cityData ;;
       coordinates <- eval (Get cityData "coordinates") ;;
       latitude <- eval (Get coordinates "latitude") ;;
       lat <- eval (ToString latitude) ;;
       longitude <- eval (Get coordinates "longitude") ;;
       lon <- eval (ToString longitude) ;;
       weatherResponse <- fetch (weatherUrl lat lon) ;;
       if negb (ok weatherResponse) then Throw
       else
         weatherDataArray <- read_json weatherResponse ;;
         found <- find_predictions weatherDataArray cityId ;;
         stored <- call (fun this => (recipeStorage.getByCityId cityId this, this)) ;;
         recipes <- eval (map_throwing recipe_json_coerced stored) ;;
         response <- format_response cityData (fst found) (snd found) recipes ;;
         Ret (mkReply 200 (Some response))))
    internal_error.

Definition post_recipes := post_recipes cityUrl.
Definition delete_recipe := delete_recipe cityUrl.

End Handlers.
End Part000.

(** ** Sequences of store operations *)

Inductive StoreOp : Type :=
| OpAdd (cityId : string) (content : JsVal)
| OpDelete (id : string).

(** The store after the operations, and the ids that [add] returned, in
    order. *)
Fixpoint exec (ops : list StoreOp) (s : Store) : Store * list Z :=
  match ops with
  | [] => (s, [])
  | OpAdd cityId content :: rest =>
      let '(recipe, s') := recipeStorage.add cityId content s in
      let '(final, ids) := exec rest s' in
      (final, Recipe.id recipe :: ids)
  | OpDelete id :: rest => exec rest (snd (recipeStorage.deleteById id s))
  end.

Definition count_adds (ops : list StoreOp) : nat :=
  List.length (filter (fun op => match op with OpAdd _ _ => true | _ => false end) ops).

Definition reachable (s : Store) : Prop :=
  exists ops, fst (exec ops recipeStorage.initial) = s.

Definition stored_ids (s : Store) : list Z := map Recipe.id (recipes s).

(** A host for closed examples: an unset API key, and conversions that are
    constant outside the exact integers (no example below reaches them). *)
Program Definition example_host : Host :=
  {| API_KEY := None;
     StringToNumber := fun _ => NaN;
     NumberToString_inexact := fun _ => "0" |}.
Next Obligation. exists 0. reflexivity. Qed.

(** What every reachable store satisfies: the stored ids are in strictly
    increasing order, positive, and at most [lastId]. *)
Definition store_inv (s : Store) : Prop :=
  StronglySorted Z.lt (stored_ids s)
  /\ Forall (fun z => 1 <= z <= lastId s) (stored_ids s)
  /\ 0 <= lastId s.

(** The value of a decimal numeral read most significant digit first,
    continuing from [acc]. *)
Fixpoint uint_val (d : uint) (acc : Z) : Z :=
  match d with
  | Nil => acc
  | D0 d => uint_val d (acc * 10 + 0)
  | D1 d => uint_val d (acc * 10 + 1)
  | D2 d => uint_val d (acc * 10 + 2)
  | D3 d => uint_val d (acc * 10 + 3)
  | D4 d => uint_val d (acc * 10 + 4)
  | D5 d => uint_val d (acc * 10 + 5)
  | D6 d => uint_val d (acc * 10 + 6)
  | D7 d => uint_val d (acc * 10 + 7)
  | D8 d => uint_val d (acc * 10 + 8)
  | D9 d => uint_val d (acc * 10 + 9)
  end.

(** ** What a run of a GET handler can be *)

Definition not_found : Reply := mkReply 404 (error "City not found").
Definition failed : Reply := mkReply 500 (error "Internal server error").

Section GetSpecs.
Context {host : Host}.

(** [src/index.js]: a failure, the city's 404, or the payload's fields put
    together as they came. *)
Definition IndexJs_get_spec (cityId : string)
  (upstream : list (option Response)) (s : Store) (r : Run Reply) : Prop :=
  store r = s
  /\ (outcome r = Some failed
      \/ (outcome r = Some not_found
          /\ exists resp, hd None upstream = Some resp /\ status resp = 404)
      \/ exists cityResponse weatherResponse cityData weatherData
                coordinates population knownFor
                today tomorrow todayMin todayMax tomorrowMin tomorrowMax,
           outcome r = Some (mkReply 200 (Some
             (infos coordinates population knownFor
                (prediction "today" todayMin todayMax)
                (prediction "tomorrow" tomorrowMin tomorrowMax)
                (map recipe_json (recipeStorage.getByCityId cityId s)))))
           /\ hd None upstream = Some cityResponse
           /\ ok cityResponse = true
           /\ json cityResponse = Some cityData
           /\ hd None (tl upstream) = Some weatherResponse
           /\ ok weatherResponse = true
           /\ json weatherResponse = Some weatherData
           /\ Get cityData "coordinates" = Some coordinates
           /\ Get cityData "population" = Some population
           /\ Get cityData "knownFor" = Some knownFor
           /\ Get weatherData "today" = Some today
           /\ Get weatherData "tomorrow" = Some tomorrow
           /\ Get today "min" = Some todayMin
           /\ Get today "max" = Some todayMax
           /\ Get tomorrow "min" = Some tomorrowMin
           /\ Get tomorrow "max" = Some tomorrowMax).

(** The document of a 200 reply of the revisions that validate. *)
Definition coerced_infos (lat lon : JsNum) (population : Z)
  (texts : list string) (todayMin todayMax tomorrowMin tomorrowMax : JsNum)
  (entries : list JsVal) : JsVal :=
  infos (JArr [JNum lat; JNum lon]) (JNum (Int population))
    (JArr (map JStr texts))
    (prediction "today" (JNum todayMin) (JNum todayMax))
    (prediction "tomorrow" (JNum tomorrowMin) (JNum tomorrowMax))
    entries.

(** [src/unnamed/part_001]: a failure, the city's 404, or a 200 that only
    validated payloads and convertible texts give. *)
Definition Part001_get_spec (cityId : string)
  (upstream : list (option Response)) (s : Store) (r : Run Reply) : Prop :=
  store r = s
  /\ (outcome r = Some failed
      \/ (outcome r = Some not_found
          /\ exists resp, hd None upstream = Some resp /\ status resp = 404)
      \/ exists cityResponse weatherResponse cityData weatherData
                lat lon population population' items texts
                todayMin todayMax tomorrowMin tomorrowMax entries,
           outcome r = Some (mkReply 200 (Some
             (coerced_infos lat lon population' texts
                todayMin todayMax tomorrowMin tomorrowMax entries)))
           /\ hd None upstream = Some cityResponse
           /\ ok cityResponse = true
           /\ json cityResponse = Some cityData
           /\ Part001.validate_city cityData = Ret tt
           /\ hd None (tl upstream) = Some weatherResponse
           /\ ok weatherResponse = true
           /\ json weatherResponse = Some weatherData
           /\ Part001.validate_weather weatherData = Ret tt
           /\ Get cityData "coordinates" = Some (JArr [JNum lat; JNum lon])
           /\ Get cityData "population" = Some (JNum (Int population))
           /\ parseInt (JNum (Int population)) = Some (Int population')
           /\ Get cityData "knownFor" = Some (JArr items)
           /\ map_throwing ToString items = Some texts
           /\ map_throwing recipe_json_coerced
                (recipeStorage.getByCityId cityId s) = Some entries).

(** [src/unnamed/part_000]: the same, with its own validation and the
    predictions found by city. *)
Definition Part000_get_spec (cityId : string)
  (upstream : list (option Response)) (s : Store) (r : Run Reply) : Prop :=
  store r = s
  /\ (outcome r = Some failed
      \/ (outcome r = Some not_found
          /\ exists resp, hd None upstream = Some resp /\ status resp = 404)
      \/ exists cityResponse weatherResponse cityData weatherDataArray
                lat lon population' texts
                todayMin todayMax tomorrowMin tomorrowMax entries,
           outcome r = Some (mkReply 200 (Some
             (coerced_infos lat lon population' texts
                todayMin todayMax tomorrowMin tomorrowMax entries)))
           /\ hd None upstream = Some cityResponse
           /\ ok cityResponse = true
           /\ json cityResponse = Some cityData
           /\ Part000.validate_city cityData = Ret tt
           /\ hd None (tl upstream) = Some weatherResponse
           /\ ok weatherResponse = true
           /\ json weatherResponse = Some weatherDataArray
           /\ Part000.find_predictions weatherDataArray cityId <> Throw
           /\ map_throwing recipe_json_coerced
                (recipeStorage.getByCityId cityId s) = Some entries).

End GetSpecs.



(** ** Data for closed examples *)

Definition example_city : JsVal :=
  JObj [("coordinates", JArr [JNum (Int 48); JNum (Int 2)]);
        ("population", JNum (Int 2148000));
        ("knownFor", JArr [JStr "Eiffel Tower"; JStr "Louvre"])].

Definition example_weather : JsVal :=
  JObj [("today", JObj [("min", JNum (Int 12)); ("max", JNum (Int 21))]);
        ("tomorrow", JObj [("min", JNum (Int 11)); ("max", JNum (Int 19))])].


(** A payload whose [coordinates] is the text "ab". *)
Definition text_coordinates_city : JsVal :=
  JObj [("coordinates", JStr "ab");
        ("population", JNum (Int 2148000));
        ("knownFor", JArr [])].

Definition answers (cityData weatherData : JsVal) : list (option Response) :=
  [Some (mkResponse 200 (Some cityData)); Some (mkResponse 200 (Some weatherData))].

Definition city_exists : list (option Response) := [Some (mkResponse 200 None)].

Definition example_store : Store :=
  mkStore [Recipe.make 1 (JStr "Bring garlic and oil") "paris"] 1.

(** ** Texts around an id *)

(** A text made of white space only. *)
Fixpoint all_white_space (s : string) : bool :=
  match s with
  | EmptyString => true
  | String c rest => isWhiteSpace c && all_white_space rest
  end.

(** A text that is empty or starts with something else than a decimal
    digit: where the reading of a decimal numeral stops. *)
Definition ends_numeral (s : string) : bool :=
  match s with
  | EmptyString => true
  | String c _ =>
      match digit_value c with
      | Some d => negb (d <? 10)
      | None => true
      end
  end.

(** ** The upstream requests of a GET *)

Section FetchSpecs.
Context {host : Host}.

(** The requests of one GET: the city's URL alone, with a reply that is not
    a 200, or the city's URL and then, the city's answer having been
    accepted and read, the weather URL made from its payload. *)
Definition fetched_in_order (cityUrl : string)
  (weather_of : JsVal -> string -> Prop)
  (upstream : list (option Response)) (r : Run Reply) : Prop :=
  (calls r = [cityUrl]
   /\ forall reply, outcome r = Some reply -> code reply <> 200)
  \/ exists cityResponse cityData url,
       hd None upstream = Some cityResponse /\ ok cityResponse = true
       /\ json cityResponse = Some cityData
       /\ weather_of cityData url
       /\ calls r = [cityUrl; url].

Definition IndexJs_weather_of (cityData : JsVal) (url : string) : Prop :=
  exists coordinates c0 c1 lat lon,
    Get cityData "coordinates" = Some coordinates
    /\ GetIndex coordinates 0 = Some c0 /\ ToString c0 = Some lat
    /\ GetIndex coordinates 1 = Some c1 /\ ToString c1 = Some lon
    /\ url = IndexJs.weatherUrl lat lon.

Definition Part001_weather_of (cityData : JsVal) (url : string) : Prop :=
  exists lat lon,
    Part001.validate_city cityData = Ret tt
    /\ Get cityData "coordinates" = Some (JArr [JNum lat; JNum lon])
    /\ url = Part001.weatherUrl (NumberToString lat) (NumberToString lon).

Definition Part000_weather_of (cityData : JsVal) (url : string) : Prop :=
  exists coordinates lat lon,
    Part000.validate_city cityData = Ret tt
    /\ Get cityData "coordinates" = Some coordinates
    /\ Get coordinates "latitude" = Some (JNum lat)
    /\ Get coordinates "longitude" = Some (JNum lon)
    /\ url = Part000.weatherUrl (NumberToString lat) (NumberToString lon).

End FetchSpecs.

(** A weather payload of [src/unnamed/part_000]: one entry per city. *)
Definition example_predictions : JsVal :=
  JArr [JObj [("cityId", JStr "lyon"); ("predictions", JArr [])];
        JObj [("cityId", JStr "paris");
              ("predictions",
               JArr [JObj [("when", JStr "tomorrow");
                           ("min", JNum (Int 9)); ("max", JNum (Int 17))];
                     JObj [("when", JStr "today");
                           ("min", JNum (Int 8)); ("max", JNum (Int 15))]])]].

(** * Properties *)

(** ** Lists: [findIndex], [find], [splice] *)

Lemma findIndex_find {A : Type} (p : A -> bool) (l : list A) :
  match findIndex p l with
  | Some i => find p l = nth_error l i /\ find p l <> None
  | None => find p l = None
  end.
Proof.
  induction l as [|x l IH]; simpl; [reflexivity|].
  destruct (p x); simpl; [split; [reflexivity|discriminate]|].
  destruct (findIndex p l); simpl; exact IH.
Qed.

Lemma find_none_iff {A : Type} (p : A -> bool) (l : list A) :
  find p l = None <-> forall x, In x l -> p x = false.
Proof.
  split; [apply find_none|].
  induction l as [|x l IH]; simpl; intros H; [reflexivity|].
  rewrite (H x (or_introl eq_refl)). apply IH. intros y Hy. apply H. now right.
Qed.

Lemma splice1_split {A : Type} (i : nat) (l : list A) (x : A) :
  nth_error l i = Some x ->
  l = (firstn i l ++ x :: skipn (S i) l)%list
  /\ splice1 i l = (firstn i l ++ skipn (S i) l)%list.
Proof.
  revert l; induction i as [|i IH]; intros [|y l] H; simpl in *; try discriminate.
  - injection H as ->. split; reflexivity.
  - destruct (IH l H) as [E _]. split; [now rewrite <- E | reflexivity].
Qed.

Lemma splice1_map {A B : Type} (f : A -> B) (i : nat) (l : list A) :
  map f (splice1 i l) = splice1 i (map f l).
Proof.
  unfold splice1. now rewrite map_app, firstn_map, skipn_map.
Qed.

Lemma splice1_incl {A : Type} (i : nat) (l : list A) (x : A) :
  In x (splice1 i l) -> In x l.
Proof.
  unfold splice1. rewrite in_app_iff. intros [H|H].
  - rewrite <- (firstn_skipn i l). apply in_or_app. now left.
  - rewrite <- (firstn_skipn (S i) l). apply in_or_app. now right.
Qed.

Lemma sorted_remove (l1 l2 : list Z) (x : Z) :
  StronglySorted Z.lt (l1 ++ x :: l2)%list -> StronglySorted Z.lt (l1 ++ l2)%list.
Proof.
  induction l1 as [|y l1 IH]; simpl; intros H.
  - now inversion H.
  - inversion H as [|? ? Hs Hf]; subst. constructor; [now apply IH|].
    rewrite Forall_app in *. destruct Hf as [Hf1 Hf2]. split; [exact Hf1|].
    now inversion Hf2.
Qed.

Lemma sorted_snoc (l : list Z) (x : Z) :
  StronglySorted Z.lt l -> Forall (fun y => y < x) l ->
  StronglySorted Z.lt (l ++ [x])%list.
Proof.
  induction 1 as [|y l Hs IH Hf]; simpl; intros Hb.
  - repeat constructor.
  - inversion Hb; subst. constructor; [now apply IH|].
    rewrite Forall_app. split; [exact Hf|]. now repeat constructor.
Qed.

Lemma sorted_NoDup (l : list Z) : StronglySorted Z.lt l -> NoDup l.
Proof.
  induction 1 as [|y l Hs IH Hf]; constructor; [|exact IH].
  intros Hin. rewrite Forall_forall in Hf. specialize (Hf _ Hin). lia.
Qed.

(** ** [parseInt] reads back the decimal text of an integer *)

Lemma parse_digits_uint (d : uint) :
  forall acc, parse_digits 10 (NilEmpty.string_of_uint d) (Some acc)
              = Some (uint_val d acc).
Proof.
  induction d; intros acc; simpl; [reflexivity|..]; apply IHd.
Qed.

Lemma uint_val_acc (d : uint) :
  forall p, uint_val d (Z.pos p) = Z.pos (Pos.of_uint_acc d p).
Proof.
  induction d; intros p; cbn [uint_val Pos.of_uint_acc]; [reflexivity|..];
    match goal with
    | |- uint_val _ ?a = Z.pos (Pos.of_uint_acc _ ?q) =>
        replace a with (Z.pos q) by lia; apply IHd
    end.
Qed.

Lemma uint_val_0 (d : uint) : uint_val d 0 = Z.of_N (Pos.of_uint d).
Proof.
  induction d; simpl; [reflexivity|exact IHd|..]; apply uint_val_acc.
Qed.

Lemma parseInt_uint (d : uint) :
  d <> Nil ->
  parseInt_string (NilEmpty.string_of_uint d) = Int (uint_val d 0)
  /\ parseInt_string (String "-" (NilEmpty.string_of_uint d))
     = Int (- uint_val d 0).
Proof.
  intros Hd. destruct d as [|d|d|d|d|d|d|d|d|d|d]; [congruence|..];
    try (unfold parseInt_string; simpl; rewrite parse_digits_uint;
         split; f_equal; now destruct (uint_val _ _)).
  destruct d; unfold parseInt_string; simpl; rewrite ?parse_digits_uint;
    split; f_equal; try reflexivity; now destruct (uint_val _ _).
Qed.

Lemma parseInt_Z_to_string (z : Z) : parseInt_string (Z_to_string z) = Int z.
Proof.
  unfold Z_to_string. destruct z as [|p|p]; simpl; [reflexivity|..].
  - pose proof (Unsigned.to_uint_nonnil p) as Hn.
    destruct (parseInt_uint _ Hn) as [E _].
    unfold NilZero.string_of_uint.
    destruct (Pos.to_uint p) eqn:Ep; [congruence|..];
      rewrite E, uint_val_0, <- Ep, Unsigned.of_to; reflexivity.
  - pose proof (Unsigned.to_uint_nonnil p) as Hn.
    destruct (parseInt_uint _ Hn) as [_ E].
    unfold NilZero.string_of_uint.
    destruct (Pos.to_uint p) eqn:Ep; [congruence|..];
      rewrite E, uint_val_0, <- Ep, Unsigned.of_to; reflexivity.
Qed.

(** ** The recipe store *)

Lemma add_spec (cityId : string) (content : JsVal) (s : Store) :
  recipeStorage.add cityId content s =
  (Recipe.make (lastId s + 1) content cityId,
   mkStore (recipes s ++ [Recipe.make (lastId s + 1) content cityId])
           (lastId s + 1)).
Proof. reflexivity. Qed.

Lemma deleteById_lastId (i : string) (s : Store) :
  lastId (snd (recipeStorage.deleteById i s)) = lastId s.
Proof.
  unfold recipeStorage.deleteById. now destruct (findIndex _ _).
Qed.

Lemma deleteById_incl (i : string) (s : Store) (r : Recipe) :
  In r (recipes (snd (recipeStorage.deleteById i s))) -> In r (recipes s).
Proof.
  unfold recipeStorage.deleteById. destruct (findIndex _ _); simpl; [|trivial].
  apply splice1_incl.
Qed.

Lemma add_inv (cityId : string) (content : JsVal) (s : Store) :
  store_inv s -> store_inv (snd (recipeStorage.add cityId content s)).
Proof.
  intros (Hs & Hb & H0). unfold store_inv, stored_ids in *. simpl.
  rewrite map_app. simpl. repeat split; [| |lia].
  - apply sorted_snoc; [exact Hs|].
    eapply Forall_impl; [|exact Hb]. simpl. intros; lia.
  - rewrite Forall_app. split.
    + eapply Forall_impl; [|exact Hb]. simpl. intros; lia.
    + repeat constructor; lia.
Qed.

Lemma deleteById_inv (i : string) (s : Store) :
  store_inv s -> store_inv (snd (recipeStorage.deleteById i s)).
Proof.
  intros (Hs & Hb & H0). unfold recipeStorage.deleteById.
  pose proof (findIndex_find (recipeStorage.idMatches i) (recipes s)) as Hf.
  destruct (findIndex _ _) as [n|]; simpl; [|now repeat split].
  destruct Hf as [Hf Hn].
  destruct (nth_error (recipes s) n) as [x|] eqn:Hx; [|congruence].
  destruct (splice1_split _ _ _ Hx) as [El Es].
  unfold store_inv, stored_ids in *. simpl. rewrite Es.
  rewrite El in Hs, Hb. rewrite map_app in *. simpl in *.
  repeat split; [| |exact H0].
  - eapply sorted_remove; exact Hs.
  - rewrite Forall_app in *. destruct Hb as [Hb1 Hb2]. split; [exact Hb1|].
    now inversion Hb2.
Qed.

Lemma exec_inv (ops : list StoreOp) :
  forall s, store_inv s -> store_inv (fst (exec ops s)).
Proof.
  induction ops as [|[c x|i] ops IH]; intros s H; simpl; [exact H| |].
  - specialize (IH _ (add_inv c x s H)). rewrite add_spec in *. simpl in *.
    now destruct (exec ops _).
  - apply IH, deleteById_inv, H.
Qed.

Lemma initial_inv : store_inv recipeStorage.initial.
Proof. repeat split; try constructor; simpl; lia. Qed.

Lemma reachable_inv (s : Store) : reachable s -> store_inv s.
Proof. intros [ops <-]. apply exec_inv, initial_inv. Qed.


Lemma exec_ids (ops : list StoreOp) :
  forall s,
    snd (exec ops s) = map (fun k => lastId s + Z.of_nat k) (seq 1 (count_adds ops))
    /\ lastId (fst (exec ops s)) = lastId s + Z.of_nat (count_adds ops).
Proof.
  unfold count_adds.
  induction ops as [|[c x|i] ops IH]; intros s; simpl.
  - split; [reflexivity|lia].
  - destruct (IH (mkStore (recipes s ++ [Recipe.make (lastId s + 1) x c])
                          (lastId s + 1))) as [E1 E2].
    destruct (exec ops _) as [final ids]. simpl in *. split.
    + f_equal. rewrite E1, <- (seq_shift _ 1), map_map.
      apply map_ext. intros; simpl; lia.
    + lia.
  - destruct (IH (snd (recipeStorage.deleteById i s))) as [E1 E2].
    rewrite deleteById_lastId in *. now split.
Qed.



(** ** Lookup and deletion by the text of an id *)

Lemma idMatches_text (n : Z) (recipe : Recipe) :
  recipeStorage.idMatches (Z_to_string n) recipe = (Recipe.id recipe =? n).
Proof. unfold recipeStorage.idMatches. now rewrite parseInt_Z_to_string. Qed.

Lemma find_by_id (l : list Recipe) (recipe : Recipe) :
  NoDup (map Recipe.id l) -> In recipe l ->
  find (fun r => Recipe.id r =? Recipe.id recipe) l = Some recipe.
Proof.
  induction l as [|x l IH]; simpl; intros Hnd Hin; [contradiction|].
  inversion Hnd as [|? ? Hx Hl]; subst.
  destruct Hin as [->|Hin]; [now rewrite Z.eqb_refl|].
  destruct (Z.eqb_spec (Recipe.id x) (Recipe.id recipe)) as [E|_]; [|now apply IH].
  exfalso. apply Hx. rewrite E. now apply in_map.
Qed.

Lemma NoDup_map_inv {A B : Type} (f : A -> B) (l : list A) :
  NoDup (map f l) -> NoDup l.
Proof.
  induction l as [|x l IH]; simpl; intros H; constructor; inversion H; subst.
  - intros Hin. now apply (in_map f) in Hin.
  - now apply IH.
Qed.

Lemma find_ext_in {A : Type} (p q : A -> bool) (l : list A) :
  (forall x, p x = q x) -> find p l = find q l /\ findIndex p l = findIndex q l.
Proof.
  intros E. induction l as [|x l [IH1 IH2]]; simpl; [now split|].
  rewrite E, IH1, IH2. now split.
Qed.

Lemma getById_stored (s : Store) (recipe : Recipe) :
  store_inv s -> In recipe (recipes s) ->
  recipeStorage.getById (Z_to_string (Recipe.id recipe)) s = Some recipe.
Proof.
  intros (Hs & _) Hin. unfold recipeStorage.getById.
  destruct (find_ext_in _ _ (recipes s)
              (idMatches_text (Recipe.id recipe))) as [-> _].
  now apply find_by_id; [apply sorted_NoDup|].
Qed.

Lemma deleteById_stored (s : Store) (recipe : Recipe) :
  store_inv s -> In recipe (recipes s) ->
  let after := recipeStorage.deleteById (Z_to_string (Recipe.id recipe)) s in
  fst after = true
  /\ lastId (snd after) = lastId s
  /\ (forall r, In r (recipes (snd after)) <-> In r (recipes s) /\ r <> recipe)
  /\ ~ In (Recipe.id recipe) (stored_ids (snd after)).
Proof.
  intros Hinv Hin.
  pose proof (getById_stored s recipe Hinv Hin) as Hget.
  pose proof (deleteById_inv (Z_to_string (Recipe.id recipe)) s Hinv) as Hinv'.
  destruct Hinv as (Hs & _). apply sorted_NoDup in Hs.
  unfold recipeStorage.getById in Hget. unfold recipeStorage.deleteById in *.
  pose proof (findIndex_find
    (recipeStorage.idMatches (Z_to_string (Recipe.id recipe))) (recipes s)) as Hf.
  destruct (findIndex _ _) as [n|]; [|congruence].
  destruct Hf as [Hf _]. rewrite Hget in Hf. symmetry in Hf.
  destruct (splice1_split _ _ _ Hf) as [El Es].
  cbn [fst snd recipes lastId] in *. unfold stored_ids in *.
  cbn [recipes] in *.
  assert (Hnd : NoDup (recipes s)) by (eapply NoDup_map_inv; exact Hs).
  rewrite El in Hnd. apply NoDup_remove in Hnd. destruct Hnd as [_ Hnot].
  rewrite <- Es in Hnot.
  assert (Hids : ~ In (Recipe.id recipe) (map Recipe.id (splice1 n (recipes s)))).
  { rewrite El in Hs. rewrite map_app in Hs. cbn [map] in Hs.
    apply NoDup_remove in Hs. rewrite Es, map_app. tauto. }
  split; [reflexivity|]. split; [reflexivity|]. split; [|exact Hids].
  intros r. split.
  - intros H. split; [now apply splice1_incl in H|]. now intros ->.
  - intros [H Hne]. rewrite Es. rewrite El in H. rewrite in_app_iff in *.
    cbn [In] in H. destruct H as [H|[H|H]]; [tauto|congruence|tauto].
Qed.

Lemma getById_unknown (s : Store) (arg : string) :
  (forall recipe, In recipe (recipes s) ->
     parseInt_string arg <> Int (Recipe.id recipe)) ->
  recipeStorage.getById arg s = None
  /\ recipeStorage.deleteById arg s = (false, s).
Proof.
  intros H.
  assert (Hnone : find (recipeStorage.idMatches arg) (recipes s) = None).
  { apply find_none_iff. intros r Hr. specialize (H r Hr).
    unfold recipeStorage.idMatches. destruct (parseInt_string arg); trivial.
    destruct (Z.eqb_spec (Recipe.id r) z); [congruence|reflexivity]. }
  split; [exact Hnone|]. unfold recipeStorage.deleteById.
  pose proof (findIndex_find (recipeStorage.idMatches arg) (recipes s)) as Hf.
  destruct (findIndex _ _); [|reflexivity]. destruct Hf; congruence.
Qed.


(** ** Running handlers *)

Lemma run_eval_bind {A B : Type} (e : option A) (k : A -> Prog B)
  (upstream : list (option Response)) (s : Store) :
  run upstream (x <- eval e ;; k x) s =
  match e with
  | Some a => run upstream (k a) s
  | None => mkRun None s []
  end.
Proof. now destruct e. Qed.

(** The [try] block that opens with the city lookup. *)
Lemma run_city_lookup (url : string) (found : Response -> Prog Reply)
  (upstream : list (option Response)) (s : Store) :
  run upstream (try_catch (city_lookup url found) internal_error) s =
  match hd None upstream with
  | None => mkRun (Some (mkReply 500 (error "Internal server error"))) s [url]
  | Some resp =>
      if ok resp
      then after_fetch url
             (run (tl upstream) (try_catch (found resp) internal_error) s)
      else if status resp =? 404
           then mkRun (Some (mkReply 404 (error "City not found"))) s [url]
           else mkRun (Some (mkReply 500 (error "Internal server error"))) s [url]
  end.
Proof.
  unfold city_lookup, fetch. cbn [bind try_catch run].
  destruct (hd None upstream) as [resp|]; cbn [bind try_catch run]; [|reflexivity].
  destruct (ok resp); cbn [negb]; [reflexivity|].
  destruct (status resp =? 404); reflexivity.
Qed.

Section PostProperties.
Context {host : Host}.
Variable cityUrl : string -> string.

Lemma Get_truthy (v : JsVal) (key : string) :
  ToBoolean v = true -> exists x, Get v key = Some x.
Proof. destruct v; simpl; try discriminate; eauto. Qed.

Lemma body_content_total (body : JsVal) :
  exists content, body_content body = Some content.
Proof.
  unfold body_content. destruct (ToBoolean body) eqn:E.
  - now apply Get_truthy.
  - simpl. eauto.
Qed.

(** The whole behaviour of the POST handler, check by check. *)
Lemma post_recipes_run (cityId : string) (body : JsVal)
  (upstream : list (option Response)) (s : Store) :
  run upstream (post_recipes cityUrl cityId body) s =
  match body_content body with
  | None => mkRun None s []
  | Some content =>
      if negb (ToBoolean content)
      then mkRun (Some (mkReply 400 (error "Content is required"))) s []
      else
        match too_short content with
        | None => mkRun None s []
        | Some true =>
            mkRun (Some (mkReply 400
              (error "Content is too short (minimum 10 characters)"))) s []
        | Some false =>
            match too_long content with
            | None => mkRun None s []
            | Some true =>
                mkRun (Some (mkReply 400
                  (error "Content is too long (maximum 2000 characters)"))) s []
            | Some false =>
                match hd None upstream with
                | None =>
                    mkRun (Some (mkReply 500 (error "Internal server error")))
                          s [cityUrl cityId]
                | Some resp =>
                    if ok resp
                    then mkRun
                           (Some (mkReply 201 (Some
                              (JObj [("id", JNum (Int (lastId s + 1)));
                                     ("content", content)]))))
                           (snd (recipeStorage.add cityId content s))
                           [cityUrl cityId]
                    else if status resp =? 404
                         then mkRun (Some (mkReply 404 (error "City not found")))
                                    s [cityUrl cityId]
                         else mkRun (Some (mkReply 500
                                       (error "Internal server error")))
                                    s [cityUrl cityId]
                end
            end
        end
  end.
Proof.
  unfold post_recipes. rewrite run_eval_bind.
  destruct (body_content body) as [content|]; [|reflexivity].
  destruct (negb (ToBoolean content)); [reflexivity|].
  rewrite run_eval_bind. destruct (too_short content) as [[|]|]; try reflexivity.
  rewrite run_eval_bind. destruct (too_long content) as [[|]|]; try reflexivity.
  rewrite run_city_lookup.
  destruct (hd None upstream) as [resp|]; [|reflexivity].
  destruct (ok resp); reflexivity.
Qed.

Lemma text_checks (text : string) :
  ToBoolean (JStr text) = negb (String.length text =? 0)%nat
  /\ too_short (JStr text) = Some (Z.of_nat (String.length text) <? 10)
  /\ too_long (JStr text) = Some (2000 <? Z.of_nat (String.length text)).
Proof. destruct text; repeat split. Qed.

(** C3. The POST handler checks the content in a fixed order: a missing or
    falsy content gives 400 "Content is required"; otherwise a length below
    10 gives 400 "Content is too short (minimum 10 characters)"; otherwise a
    length above 2000 gives 400 "Content is too long (maximum 2000
    characters)". Every 400 is one of these three, and it is sent with no
    upstream call made and the store untouched. For a text the three checks
    are on its number of characters. *)
Theorem post_content_checks_in_order (cityId : string) (body : JsVal)
  (upstream : list (option Response)) (s : Store) :
  let r := run upstream (post_recipes cityUrl cityId body) s in
  let bad message := mkRun (Some (mkReply 400 (error message))) s [] in
  exists content,
    body_content body = Some content
    /\ (ToBoolean content = false -> r = bad "Content is required")
    /\ (ToBoolean content = true -> too_short content = Some true ->
         r = bad "Content is too short (minimum 10 characters)")
    /\ (ToBoolean content = true -> too_short content = Some false ->
         too_long content = Some true ->
         r = bad "Content is too long (maximum 2000 characters)")
    /\ (forall reply, outcome r = Some reply -> code reply = 400 ->
         calls r = [] /\ store r = s
         /\ (r = bad "Content is required" /\ ToBoolean content = false
             \/ r = bad "Content is too short (minimum 10 characters)"
                /\ ToBoolean content = true /\ too_short content = Some true
             \/ r = bad "Content is too long (maximum 2000 characters)"
                /\ ToBoolean content = true /\ too_short content = Some false
                /\ too_long content = Some true))
    /\ (forall text, content = JStr text ->
         let n := Z.of_nat (String.length text) in
         (n = 0 -> r = bad "Content is required")
         /\ (0 < n < 10 ->
              r = bad "Content is too short (minimum 10 characters)")
         /\ (2000 < n ->
              r = bad "Content is too long (maximum 2000 characters)")
         /\ (10 <= n <= 2000 -> calls r = [cityUrl cityId])).
Proof.
  intros r bad. subst r bad.
  destruct (body_content_total body) as [content Hc]. exists content.
  rewrite post_recipes_run, Hc. split; [reflexivity|].
  split; [intros ->; reflexivity|].
  split; [intros -> ->; reflexivity|].
  split; [intros -> -> ->; reflexivity|].
  split.
  - intros reply Hr Hcode.
    destruct (ToBoolean content); cbn [negb] in *; [|now auto 6].
    destruct (too_short content) as [[|]|]; [now auto 7| |discriminate].
    destruct (too_long content) as [[|]|]; [now auto 9| |discriminate].
    exfalso. destruct (hd None upstream) as [resp|];
      [destruct (ok resp); [|destruct (status resp =? 404)]|];
      cbn in Hr; injection Hr as <-; discriminate.
  - intros text -> n. subst n.
    destruct (text_checks text) as (-> & -> & ->).
    repeat split; intros Hn.
    + replace (String.length text =? 0)%nat with true
        by (symmetry; apply Nat.eqb_eq; lia). reflexivity.
    + replace (String.length text =? 0)%nat with false
        by (symmetry; apply Nat.eqb_neq; lia).
      replace (Z.of_nat (String.length text) <? 10) with true
        by (symmetry; apply Z.ltb_lt; lia). reflexivity.
    + replace (String.length text =? 0)%nat with false
        by (symmetry; apply Nat.eqb_neq; lia).
      replace (Z.of_nat (String.length text) <? 10) with false
        by (symmetry; apply Z.ltb_ge; lia).
      replace (2000 <? Z.of_nat (String.length text)) with true
        by (symmetry; apply Z.ltb_lt; lia). reflexivity.
    + replace (String.length text =? 0)%nat with false
        by (symmetry; apply Nat.eqb_neq; lia).
      replace (Z.of_nat (String.length text) <? 10) with false
        by (symmetry; apply Z.ltb_ge; lia).
      replace (2000 <? Z.of_nat (String.length text)) with false
        by (symmetry; apply Z.ltb_ge; lia).
      cbn [negb]. destruct (hd None upstream) as [resp|];
        [destruct (ok resp); [|destruct (status resp =? 404)]|]; reflexivity.
Qed.

(** C4. When the content passes the three checks and the city lookup
    answers 404, the POST handler replies 404 "City not found" and the store
    is exactly as before (same recipes, same [lastId]). Whatever the request
    and the upstream, the store changes only in the run that replies 201
    with the new recipe's id and content, and then by that one [add]. *)
Theorem post_city_not_found_keeps_store (cityId : string) (body : JsVal)
  (upstream : list (option Response)) (s : Store) :
  let r := run upstream (post_recipes cityUrl cityId body) s in
  let created content :=
    mkReply 201 (Some (JObj [("id", JNum (Int (lastId s + 1)));
                             ("content", content)])) in
  (forall content resp,
     body_content body = Some content -> ToBoolean content = true ->
     too_short content = Some false -> too_long content = Some false ->
     hd None upstream = Some resp -> status resp = 404 ->
     r = mkRun (Some (mkReply 404 (error "City not found"))) s [cityUrl cityId])
  /\ (forall content resp,
       body_content body = Some content -> ToBoolean content = true ->
       too_short content = Some false -> too_long content = Some false ->
       hd None upstream = Some resp -> ok resp = true ->
       r = mkRun (Some (created content))
                 (snd (recipeStorage.add cityId content s)) [cityUrl cityId])
  /\ (store r = s
      \/ exists content,
           outcome r = Some (created content)
           /\ store r = snd (recipeStorage.add cityId content s)).
Proof.
  intros r created. subst r created. rewrite post_recipes_run.
  split; [|split].
  - intros content resp -> -> -> -> -> E. cbn [negb]. unfold ok. rewrite E.
    reflexivity.
  - intros content resp -> -> -> -> -> ->. reflexivity.
  - destruct (body_content body) as [content|]; [|now left].
    destruct (negb (ToBoolean content)); [now left|].
    destruct (too_short content) as [[|]|]; try now left.
    destruct (too_long content) as [[|]|]; try now left.
    destruct (hd None upstream) as [resp|]; [|now left].
    destruct (ok resp); [right; now exists content|].
    left. now destruct (status resp =? 404).
Qed.

(** C10. The checks of the POST handler are on truthiness and on the
    [length] property. A truthy content whose [length] is [undefined] (a
    non-zero number, [true], an object with no [length]) passes the three
    checks: when the city exists it is stored as it is and echoed in the 201
    reply. A reply is a 400 exactly when the content is falsy, or its
    [length] compares below 10, or it compares above 2000. *)
Theorem post_accepts_truthy_without_length (cityId : string) (body : JsVal)
  (upstream : list (option Response)) (s : Store) :
  let r := run upstream (post_recipes cityUrl cityId body) s in
  (forall content resp,
     body_content body = Some content ->
     ToBoolean content = true ->
     Get content "length" = Some JUndefined ->
     hd None upstream = Some resp -> ok resp = true ->
     r = mkRun (Some (mkReply 201 (Some
                 (JObj [("id", JNum (Int (lastId s + 1)));
                        ("content", content)]))))
               (mkStore (recipes s ++ [Recipe.make (lastId s + 1) content cityId])
                        (lastId s + 1))
               [cityUrl cityId])
  /\ (forall n, ToBoolean (JNum n) = true ->
       Get (JNum n) "length" = Some JUndefined
       /\ too_short (JNum n) = Some false /\ too_long (JNum n) = Some false)
  /\ (forall content reply,
       body_content body = Some content -> outcome r = Some reply ->
       (code reply = 400 <->
        ToBoolean content = false
        \/ too_short content = Some true
        \/ too_long content = Some true)).
Proof.
  intros r. subst r. rewrite post_recipes_run. split; [|split].
  - intros content resp -> -> Hlen -> ->. cbn [negb].
    unfold too_short, too_long. rewrite Hlen. reflexivity.
  - intros n _. repeat split.
  - intros content reply -> Hr.
    destruct (ToBoolean content); cbn [negb] in Hr.
    + destruct (too_short content) as [[|]|]; [| |discriminate].
      * injection Hr as <-. simpl. intuition.
      * destruct (too_long content) as [[|]|]; [| |discriminate].
        -- injection Hr as <-. simpl. intuition.
        -- destruct (hd None upstream) as [resp|];
             [destruct (ok resp); [|destruct (status resp =? 404)]|];
             injection Hr as <-; simpl;
             (split; [discriminate|intros [H|[H|H]]; discriminate]).
    + injection Hr as <-. simpl. intuition.
Qed.

End PostProperties.

Section DeleteProperties.
Context {host : Host}.
Variable cityUrl : string -> string.

(** The whole behaviour of the DELETE handler. *)
Lemma delete_recipe_run (cityId recipeId : string)
  (upstream : list (option Response)) (s : Store) :
  run upstream (delete_recipe cityUrl cityId recipeId) s =
  match hd None upstream with
  | None => mkRun (Some (mkReply 500 (error "Internal server error")))
                  s [cityUrl cityId]
  | Some resp =>
      if ok resp
      then
        match recipeStorage.getById recipeId s with
        | None => mkRun (Some (mkReply 404 (error "Recipe not found")))
                        s [cityUrl cityId]
        | Some recipe =>
            if (Recipe.cityId recipe =? cityId)%string
            then mkRun (Some (mkReply 204 None))
                       (snd (recipeStorage.deleteById recipeId s))
                       [cityUrl cityId]
            else mkRun (Some (mkReply 404
                         (error "Recipe not found for this city")))
                       s [cityUrl cityId]
        end
      else if status resp =? 404
           then mkRun (Some (mkReply 404 (error "City not found")))
                      s [cityUrl cityId]
           else mkRun (Some (mkReply 500 (error "Internal server error")))
                      s [cityUrl cityId]
  end.
Proof.
  unfold delete_recipe. rewrite run_city_lookup.
  destruct (hd None upstream) as [resp|]; [|reflexivity].
  destruct (ok resp); [|reflexivity].
  unfold call, after_fetch. cbn [bind try_catch run].
  destruct (recipeStorage.getById recipeId s) as [recipe|]; [|reflexivity].
  destruct (Recipe.cityId recipe =? cityId)%string; cbn [negb bind try_catch run];
    [|reflexivity].
  now destruct (recipeStorage.deleteById recipeId s).
Qed.

(** C5, as the code has it. When the city exists and the recipe id is
    stored under another city, the DELETE handler replies 404 with the
    message "Recipe not found for this city" and deletes nothing; for an id
    that is not stored it replies 404 with the message "Recipe not found"
    and deletes nothing. The two replies have the same status code and
    different messages. *)
Theorem delete_other_city_is_404 (cityId recipeId : string)
  (upstream : list (option Response)) (s : Store) (resp : Response) :
  hd None upstream = Some resp -> ok resp = true ->
  let r := run upstream (delete_recipe cityUrl cityId recipeId) s in
  (forall recipe,
     recipeStorage.getById recipeId s = Some recipe ->
     Recipe.cityId recipe <> cityId ->
     r = mkRun (Some (mkReply 404 (error "Recipe not found for this city")))
               s [cityUrl cityId])
  /\ (recipeStorage.getById recipeId s = None ->
      r = mkRun (Some (mkReply 404 (error "Recipe not found")))
                s [cityUrl cityId])
  /\ mkReply 404 (error "Recipe not found for this city")
     <> mkReply 404 (error "Recipe not found").
Proof.
  intros Hup Hok r. subst r. rewrite delete_recipe_run, Hup, Hok.
  split; [|split].
  - intros recipe -> Hne. apply String.eqb_neq in Hne. now rewrite Hne.
  - now intros ->.
  - discriminate.
Qed.

End DeleteProperties.

(** ** The GET handlers *)

(** One step through a handler: reduce, then split on the next expression
    that may throw, the next upstream answer or the next test. *)
Ltac handler_step :=
  cbv beta delta [read_json fetch call city_lookup internal_error];
  cbn [bind try_catch run negb fst snd];
  match goal with
  | |- context [eval ?e] => destruct e eqn:?; cbn [eval]
  | |- context [match hd None ?u with _ => _ end] => destruct (hd None u) eqn:?
  | |- context [if ?b then _ else _] => destruct b eqn:?
  end.

Ltac handler_cases := repeat handler_step.

Section GetProperties.
Context {host : Host}.

(** *** City and weather validation ([src/unnamed/part_001]) *)

Lemma Part001_validate_city_cases (cityData : JsVal) :
  Part001.validate_city cityData = Ret tt
  \/ Part001.validate_city cityData = Throw.
Proof.
  unfold Part001.validate_city.
  destruct (Get cityData "coordinates") as [c|]; cbn [eval bind]; [|now right].
  destruct (Part001.invalid_coordinates c); [now right|].
  destruct (Get cityData "population") as [p|]; cbn [eval bind]; [|now right].
  destruct (Part001.invalid_population p); [now right|].
  destruct (Get cityData "knownFor") as [k|]; cbn [eval bind]; [|now right].
  destruct (Part001.invalid_knownFor k); [now right|now left].
Qed.

Lemma Part001_coordinates_valid (c : JsVal) :
  Part001.invalid_coordinates c = false <->
  exists lat lon, c = JArr [JNum lat; JNum lon].
Proof.
  split.
  - destruct c as [| | | | |items|]; simpl; intros H; try discriminate H.
    apply orb_false_iff in H. destruct H as [H H1].
    apply orb_false_iff in H. destruct H as [Hlen H0].
    apply negb_false_iff, Z.eqb_eq in Hlen.
    destruct items as [|x [|y [|z l]]]; simpl List.length in Hlen; try lia.
    destruct x, y; try discriminate H0; try discriminate H1. eauto.
  - intros (lat & lon & ->). reflexivity.
Qed.

Lemma Part001_population_valid (p : JsVal) :
  Part001.invalid_population p = false <-> exists z, p = JNum (Int z).
Proof.
  split.
  - destruct p as [| | |[| | |z|q]| | |]; simpl; intros H; try discriminate H.
    eauto.
  - intros (z & ->). reflexivity.
Qed.

Lemma Part001_knownFor_valid (k : JsVal) :
  Part001.invalid_knownFor k = false <-> exists items, k = JArr items.
Proof.
  split.
  - destruct k; simpl; intros H; try discriminate H. eauto.
  - intros (items & ->). reflexivity.
Qed.

Lemma Part001_validate_city_iff (cityData : JsVal) :
  Part001.validate_city cityData = Ret tt <->
  exists lat lon population items,
    Get cityData "coordinates" = Some (JArr [JNum lat; JNum lon])
    /\ Get cityData "population" = Some (JNum (Int population))
    /\ Get cityData "knownFor" = Some (JArr items).
Proof.
  unfold Part001.validate_city. split.
  - destruct (Get cityData "coordinates") as [c|]; cbn [eval bind];
      [|discriminate].
    destruct (Part001.invalid_coordinates c) eqn:Ec; [discriminate|].
    destruct (Get cityData "population") as [p|]; cbn [eval bind];
      [|discriminate].
    destruct (Part001.invalid_population p) eqn:Ep; [discriminate|].
    destruct (Get cityData "knownFor") as [k|]; cbn [eval bind];
      [|discriminate].
    destruct (Part001.invalid_knownFor k) eqn:Ek; [discriminate|].
    intros _.
    apply Part001_coordinates_valid in Ec. destruct Ec as (lat & lon & ->).
    apply Part001_population_valid in Ep. destruct Ep as (z & ->).
    apply Part001_knownFor_valid in Ek. destruct Ek as (items & ->).
    now exists lat, lon, z, items.
  - intros (lat & lon & z & items & -> & -> & ->). reflexivity.
Qed.

Lemma Get_number_truthy (v : JsVal) (key : string) (n : JsNum) :
  (key =? "length")%string = false ->
  Get v key = Some (JNum n) -> ToBoolean v = true.
Proof.
  intros Hk. destruct v; simpl; try rewrite Hk; try discriminate; reflexivity.
Qed.

Lemma Part001_validate_weather_cases (weatherData : JsVal) :
  Part001.validate_weather weatherData = Ret tt
  \/ Part001.validate_weather weatherData = Throw.
Proof.
  unfold Part001.validate_weather.
  repeat match goal with
         | |- context [eval ?e] => destruct e; cbn [eval bind]
         | |- context [if ?b then _ else _] => destruct b
         end; auto.
Qed.

Lemma isNumber_true (v : JsVal) : isNumber v = true -> exists n, v = JNum n.
Proof. destruct v; try discriminate. eauto. Qed.

Lemma Part001_validate_weather_iff (weatherData : JsVal) :
  Part001.validate_weather weatherData = Ret tt <->
  exists today tomorrow todayMin todayMax tomorrowMin tomorrowMax,
    Get weatherData "today" = Some today
    /\ Get weatherData "tomorrow" = Some tomorrow
    /\ Get today "min" = Some (JNum todayMin)
    /\ Get today "max" = Some (JNum todayMax)
    /\ Get tomorrow "min" = Some (JNum tomorrowMin)
    /\ Get tomorrow "max" = Some (JNum tomorrowMax).
Proof.
  unfold Part001.validate_weather. split.
  - destruct (Get weatherData "today") as [today|]; cbn [eval bind];
      [|discriminate].
    destruct (negb (ToBoolean today)); [discriminate|].
    destruct (Get weatherData "tomorrow") as [tomorrow|]; cbn [eval bind];
      [|discriminate].
    destruct (negb (ToBoolean tomorrow)); [discriminate|].
    destruct (Get today "min") as [a|] eqn:Ha; cbn [eval bind]; [|discriminate].
    destruct (Get today "max") as [b|] eqn:Hb; cbn [eval bind]; [|discriminate].
    destruct (Get tomorrow "min") as [c|] eqn:Hc; cbn [eval bind];
      [|discriminate].
    destruct (Get tomorrow "max") as [d|] eqn:Hd; cbn [eval bind];
      [|discriminate].
    destruct (isNumber a) eqn:Ea; [|discriminate].
    destruct (isNumber b) eqn:Eb; [|discriminate].
    destruct (isNumber c) eqn:Ec; [|discriminate].
    destruct (isNumber d) eqn:Ed; [|discriminate].
    intros _.
    apply isNumber_true in Ea, Eb, Ec, Ed.
    destruct Ea as (? & ->), Eb as (? & ->), Ec as (? & ->), Ed as (? & ->).
    repeat eexists; eassumption.
  - intros (today & tomorrow & a & b & c & d & H1 & H2 & H3 & H4 & H5 & H6).
    rewrite H1. cbn [eval bind].
    rewrite (Get_number_truthy today "min" a eq_refl H3). cbn [negb].
    rewrite H2. cbn [eval bind].
    rewrite (Get_number_truthy tomorrow "min" c eq_refl H5). cbn [negb].
    rewrite H3, H4, H5, H6. reflexivity.
Qed.

(** [parseInt] of an integer number is an integer, the same one within the
    exact range. *)
Lemma parseInt_integer (z : Z) :
  exists z', parseInt (JNum (Int z)) = Some (Int z')
             /\ (Z.abs z <= TWO_53 -> z' = z).
Proof.
  unfold parseInt. cbn [ToString NumberToString option_map].
  destruct (Z.leb_spec (Z.abs z) TWO_53) as [Hle|Hgt].
  - exists z. now rewrite parseInt_Z_to_string.
  - destruct (NumberToString_inexact_digit (Int z)) as [z' E].
    exists z'. rewrite E. split; [reflexivity|lia].
Qed.

(** Reduce a handler along the equations at hand. *)
Ltac handler_rewrite :=
  repeat first
    [ progress (cbv beta delta [read_json fetch call city_lookup internal_error];
                cbn [bind try_catch run eval negb fst snd
                     GetIndex nth ToString ToNumber option_map])
    | match goal with
      | H : ?l = _ |- context [?l] => rewrite H
      end ].

(** *** The revision [src/unnamed/part_001]: when it replies 200 *)


Ltac spec_leaf :=
  unfold IndexJs_get_spec, Part001_get_spec, Part000_get_spec,
         after_fetch, failed, not_found;
  cbn [outcome store calls]; split; [reflexivity|].

Lemma Part001_get_infos_run (cityId : string)
  (upstream : list (option Response)) (s : Store) :
  Part001_get_spec cityId upstream s
    (run upstream (Part001.get_infos cityId) s).
Proof.
  unfold Part001.get_infos. rewrite run_city_lookup.
  destruct (hd None upstream) as [r1|] eqn:H1; [|spec_leaf; now left].
  destruct (ok r1) eqn:Hok1;
    [|destruct (status r1 =? 404) eqn:E404; spec_leaf;
      [right; left; split; [reflexivity|]; exists r1;
       split; [exact H1|now apply Z.eqb_eq]
      |now left]].
  destruct (json r1) as [cityData|] eqn:Hj1; handler_rewrite;
    [|spec_leaf; now left].
  destruct (Part001_validate_city_cases cityData) as [Hvc|Hvc];
    rewrite Hvc; handler_rewrite; [|spec_leaf; now left].
  pose proof Hvc as Hshape. apply Part001_validate_city_iff in Hshape.
  destruct Hshape as (lat & lon & p & items & Hc & Hp & Hk).
  handler_rewrite.
  destruct (hd None (tl upstream)) as [r2|] eqn:H2; handler_rewrite;
    [|spec_leaf; now left].
  destruct (ok r2) eqn:Hok2; handler_rewrite; [|spec_leaf; now left].
  destruct (json r2) as [weatherData|] eqn:Hj2; handler_rewrite;
    [|spec_leaf; now left].
  destruct (Part001_validate_weather_cases weatherData) as [Hvw|Hvw];
    rewrite Hvw; handler_rewrite; [|spec_leaf; now left].
  pose proof Hvw as Hshape. apply Part001_validate_weather_iff in Hshape.
  destruct Hshape as (today & tomorrow & a & b & c & d
                      & Ht & Hm & Ha & Hb & Hc' & Hd).
  destruct (map_throwing recipe_json_coerced
              (recipeStorage.getByCityId cityId s)) as [entries|] eqn:He;
    handler_rewrite; [|spec_leaf; now left].
  unfold Part001.format_response, map_String, number. handler_rewrite.
  destruct (parseInt_integer p) as (p' & Hparse & _). handler_rewrite.
  destruct (map_throwing ToString items) as [texts|] eqn:Htexts;
    handler_rewrite; [|spec_leaf; now left].
  spec_leaf. right; right.
  exists r1, r2, cityData, weatherData, lat, lon, p, p', items, texts,
         a, b, c, d, entries.
  repeat split; assumption || reflexivity.
Qed.

(** *** [src/index.js] *)

Lemma IndexJs_get_infos_run (cityId : string)
  (upstream : list (option Response)) (s : Store) :
  IndexJs_get_spec cityId upstream s
    (run upstream (IndexJs.get_infos cityId) s).
Proof.
  unfold IndexJs.get_infos. rewrite run_city_lookup.
  destruct (hd None upstream) as [r1|] eqn:H1; [|spec_leaf; now left].
  destruct (ok r1) eqn:Hok1;
    [|destruct (status r1 =? 404) eqn:E404; spec_leaf;
      [right; left; split; [reflexivity|]; exists r1;
       split; [exact H1|now apply Z.eqb_eq]
      |now left]].
  handler_cases; spec_leaf; try (now left).
  repeat match goal with
         | H : negb _ = false |- _ => apply negb_false_iff in H
         end.
  right; right. repeat eexists; eassumption.
Qed.


(** *** Error replies *)




(** *** The revision [src/unnamed/part_000] *)

Lemma Part000_validate_city_cases (cityData : JsVal) :
  Part000.validate_city cityData = Ret tt
  \/ Part000.validate_city cityData = Throw.
Proof.
  unfold Part000.validate_city.
  repeat match goal with
         | |- context [eval ?e] => destruct e; cbn [eval bind]
         | |- context [if ?b then _ else _] => destruct b
         end; auto.
Qed.

Lemma Part000_validate_city_iff (cityData : JsVal) :
  Part000.validate_city cityData = Ret tt <->
  exists coordinates lat lon population items,
    Get cityData "coordinates" = Some coordinates
    /\ Get coordinates "latitude" = Some (JNum lat)
    /\ Get coordinates "longitude" = Some (JNum lon)
    /\ Get cityData "population" = Some (JNum (Int population))
    /\ Get cityData "knownFor" = Some (JArr items).
Proof.
  unfold Part000.validate_city. split.
  - destruct (Get cityData "coordinates") as [c|]; cbn [eval bind];
      [|discriminate].
    destruct (negb (ToBoolean c)); [discriminate|].
    destruct (Get c "latitude") as [x|] eqn:Hx; cbn [eval bind]; [|discriminate].
    destruct (Get c "longitude") as [y|] eqn:Hy; cbn [eval bind];
      [|discriminate].
    destruct (isNumber x) eqn:Ex; [|discriminate].
    destruct (isNumber y) eqn:Ey; [|discriminate]. cbn [negb orb].
    destruct (Get cityData "population") as [p|]; cbn [eval bind];
      [|discriminate].
    fold (Part001.invalid_population p).
    destruct (Part001.invalid_population p) eqn:Ep; [discriminate|].
    destruct (Get cityData "knownFor") as [k|]; cbn [eval bind];
      [|discriminate].
    fold (Part001.invalid_knownFor k).
    destruct (Part001.invalid_knownFor k) eqn:Ek; [discriminate|].
    intros _.
    apply isNumber_true in Ex, Ey. destruct Ex as (lat & ->), Ey as (lon & ->).
    apply Part001_population_valid in Ep. destruct Ep as (z & ->).
    apply Part001_knownFor_valid in Ek. destruct Ek as (items & ->).
    exists c, lat, lon, z, items. now repeat split.
  - intros (c & lat & lon & z & items & H1 & H2 & H3 & H4 & H5).
    rewrite H1. cbn [eval bind].
    rewrite (Get_number_truthy c "latitude" lat eq_refl H2). cbn [negb].
    rewrite H2, H3, H4, H5. reflexivity.
Qed.

Lemma Part000_find_predictions_cases (weatherDataArray : JsVal)
  (cityId : string) :
  Part000.find_predictions weatherDataArray cityId = Throw
  \/ exists today tomorrow,
       Part000.find_predictions weatherDataArray cityId = Ret (today, tomorrow)
       /\ ToBoolean today = true /\ ToBoolean tomorrow = true.
Proof.
  unfold Part000.find_predictions.
  destruct (js_find _ weatherDataArray) as [w|]; cbn [eval bind]; [|now left].
  destruct (negb (ToBoolean w)); [now left|].
  destruct (Get w "predictions") as [p|]; cbn [eval bind]; [|now left].
  destruct (negb (ToBoolean p)); [now left|].
  destruct (Get p "length") as [len|]; cbn [eval bind]; [|now left].
  destruct (js_lt len 2) as [[|]|]; cbn [eval bind]; try now left.
  destruct (js_find _ p) as [t|]; cbn [eval bind]; [|now left].
  destruct (js_find _ p) as [m|]; cbn [eval bind]; [|now left].
  destruct (ToBoolean t) eqn:Et; [|now left].
  destruct (ToBoolean m) eqn:Em; [|now left].
  right. now exists t, m.
Qed.

Lemma Part000_get_infos_run (cityId : string)
  (upstream : list (option Response)) (s : Store) :
  Part000_get_spec cityId upstream s
    (run upstream (Part000.get_infos cityId) s).
Proof.
  unfold Part000.get_infos. rewrite run_city_lookup.
  destruct (hd None upstream) as [r1|] eqn:H1; [|spec_leaf; now left].
  destruct (ok r1) eqn:Hok1;
    [|destruct (status r1 =? 404) eqn:E404; spec_leaf;
      [right; left; split; [reflexivity|]; exists r1;
       split; [exact H1|now apply Z.eqb_eq]
      |now left]].
  destruct (json r1) as [cityData|] eqn:Hj1; handler_rewrite;
    [|spec_leaf; now left].
  destruct (Part000_validate_city_cases cityData) as [Hvc|Hvc];
    rewrite Hvc; handler_rewrite; [|spec_leaf; now left].
  pose proof Hvc as Hshape. apply Part000_validate_city_iff in Hshape.
  destruct Hshape as (c & lat & lon & p & items & Hc & Hlat & Hlon & Hp & Hk).
  handler_rewrite.
  destruct (hd None (tl upstream)) as [r2|] eqn:H2; handler_rewrite;
    [|spec_leaf; now left].
  destruct (ok r2) eqn:Hok2; handler_rewrite; [|spec_leaf; now left].
  destruct (json r2) as [weatherDataArray|] eqn:Hj2; handler_rewrite;
    [|spec_leaf; now left].
  destruct (Part000_find_predictions_cases weatherDataArray cityId)
    as [Hfp|(today & tomorrow & Hfp & Ht & Hm)];
    rewrite Hfp; handler_rewrite; [spec_leaf; now left|].
  destruct (map_throwing recipe_json_coerced
              (recipeStorage.getByCityId cityId s)) as [entries|] eqn:He;
    handler_rewrite; [|spec_leaf; now left].
  unfold Part000.format_response, map_String, number. handler_rewrite.
  destruct (parseInt_integer p) as (p' & Hparse & _). handler_rewrite.
  destruct (map_throwing ToString items) as [texts|] eqn:Htexts;
    handler_rewrite; [|spec_leaf; now left].
  destruct (Get_truthy today "min" Ht) as [a Ha].
  destruct (Get_truthy today "max" Ht) as [b Hb].
  destruct (Get_truthy tomorrow "min" Hm) as [c' Hc'].
  destruct (Get_truthy tomorrow "max" Hm) as [d Hd].
  handler_rewrite.
  destruct (ToNumber a) as [a'|]; handler_rewrite; [|spec_leaf; now left].
  destruct (ToNumber b) as [b'|]; handler_rewrite; [|spec_leaf; now left].
  destruct (ToNumber c') as [c''|]; handler_rewrite; [|spec_leaf; now left].
  destruct (ToNumber d) as [d'|]; handler_rewrite; [|spec_leaf; now left].
  spec_leaf. right; right.
  exists r1, r2, cityData, weatherDataArray, lat, lon, p', texts,
         a', b', c'', d', entries.
  repeat split; try assumption; try reflexivity. now rewrite Hfp.
Qed.



(** *** Validation and coercion of the city payload *)







(** *** The aggregated document *)




End GetProperties.

(** ** Deleting a recipe that was just created *)

Section CreateThenDelete.
Context {host : Host}.
Variable cityUrl : string -> string.

Lemma map_throwing_In {A B : Type} (f : A -> option B) (l : list A)
  (l' : list B) (y : B) :
  map_throwing f l = Some l' -> In y l' -> exists x, In x l /\ f x = Some y.
Proof.
  revert l'; induction l as [|x l IH]; simpl; intros l' H Hy.
  - injection H as <-. contradiction.
  - destruct (f x) as [z|] eqn:Ez; [|discriminate].
    destruct (map_throwing f l) as [t|]; [|discriminate].
    injection H as <-. destruct Hy as [->|Hy]; [eauto|].
    destruct (IH t eq_refl Hy) as (x' & Hin & E). eauto.
Qed.

Lemma getByCityId_In (cityId : string) (s : Store) (recipe : Recipe) :
  In recipe (recipeStorage.getByCityId cityId s) -> In recipe (recipes s).
Proof. unfold recipeStorage.getByCityId. intros H. now apply filter_In in H. Qed.

(** The entries that [src/index.js] lists are those of the stored recipes
    of the city, with their ids. *)
Lemma IndexJs_listed_ids (cityId : string)
  (upstream : list (option Response)) (s : Store) (reply : Reply) :
  outcome (run upstream (IndexJs.get_infos cityId) s) = Some reply ->
  code reply = 200 ->
  exists doc entries,
    body reply = Some doc /\ Get doc "recipes" = Some (JArr entries)
    /\ forall e, In e entries ->
         exists recipe, In recipe (recipes s)
                        /\ Get e "id" = Some (JNum (Int (Recipe.id recipe))).
Proof.
  intros H Hcode.
  destruct (IndexJs_get_infos_run cityId upstream s) as [_ [Hf|[[Hn _]|Hdoc]]].
  - rewrite Hf in H. injection H as <-. discriminate Hcode.
  - rewrite Hn in H. injection H as <-. discriminate Hcode.
  - destruct Hdoc as (? & ? & ? & ? & ? & ? & ? & ? & ? & ? & ? & ? & ?
                      & Hout & _).
    rewrite Hout in H. injection H as <-.
    eexists _, _. split; [reflexivity|]. split; [reflexivity|].
    intros e He. apply in_map_iff in He. destruct He as (recipe & <- & Hin).
    exists recipe. split; [now apply getByCityId_In in Hin|reflexivity].
Qed.

Lemma coerced_entry_id (s : Store) (recipe : Recipe) (e : JsVal) :
  store_inv s -> lastId s <= TWO_53 -> In recipe (recipes s) ->
  recipe_json_coerced recipe = Some e ->
  Get e "id" = Some (JNum (Int (Recipe.id recipe))).
Proof.
  intros (_ & Hb & _) Hlast Hin He. unfold recipe_json_coerced in He.
  destruct (parseInt_integer (Recipe.id recipe)) as (z & Hz & Hexact).
  rewrite Hz in He. destruct (ToString (Recipe.content recipe)); [|discriminate].
  injection He as <-. simpl. rewrite Hexact; [reflexivity|].
  rewrite Forall_forall in Hb.
  specialize (Hb (Recipe.id recipe) (in_map Recipe.id _ _ Hin)). lia.
Qed.

(** The same for the two revisions that convert, as long as ids are exact
    integers. *)
Lemma coerced_listed_ids (cityId : string)
  (upstream : list (option Response)) (s : Store) (reply : Reply) :
  store_inv s -> lastId s <= TWO_53 ->
  outcome (run upstream (Part001.get_infos cityId) s) = Some reply
  \/ outcome (run upstream (Part000.get_infos cityId) s) = Some reply ->
  code reply = 200 ->
  exists doc entries,
    body reply = Some doc /\ Get doc "recipes" = Some (JArr entries)
    /\ forall e, In e entries ->
         exists recipe, In recipe (recipes s)
                        /\ Get e "id" = Some (JNum (Int (Recipe.id recipe))).
Proof.
  intros Hinv Hlast H Hcode.
  assert (Hentries : forall entries,
            map_throwing recipe_json_coerced
              (recipeStorage.getByCityId cityId s) = Some entries ->
            forall e, In e entries ->
              exists recipe, In recipe (recipes s)
                /\ Get e "id" = Some (JNum (Int (Recipe.id recipe)))).
  { intros entries He e Hin.
    destruct (map_throwing_In _ _ _ _ He Hin) as (recipe & Hr & Hje).
    apply getByCityId_In in Hr. exists recipe. split; [exact Hr|].
    now apply (coerced_entry_id s). }
  destruct H as [H|H].
  - destruct (Part001_get_infos_run cityId upstream s)
      as [_ [Hf|[[Hn _]|Hdoc]]].
    + rewrite Hf in H. injection H as <-. discriminate Hcode.
    + rewrite Hn in H. injection H as <-. discriminate Hcode.
    + destruct Hdoc as (? & ? & ? & ? & ? & ? & ? & ? & ? & ? & ? & ? & ? & ?
                        & entries & Hout & ? & ? & ? & ? & ? & ? & ? & ? & ?
                        & ? & ? & ? & ? & He).
      rewrite Hout in H. injection H as <-.
      eexists _, entries.
      split; [reflexivity|]. split; [reflexivity|]. now apply Hentries.
  - destruct (Part000_get_infos_run cityId upstream s)
      as [_ [Hf|[[Hn _]|Hdoc]]].
    + rewrite Hf in H. injection H as <-. discriminate Hcode.
    + rewrite Hn in H. injection H as <-. discriminate Hcode.
    + destruct Hdoc as (? & ? & ? & ? & ? & ? & ? & ? & ? & ? & ? & ?
                        & entries & Hout & ? & ? & ? & ? & ? & ? & ? & ? & He).
      rewrite Hout in H. injection H as <-.
      eexists _, entries.
      split; [reflexivity|]. split; [reflexivity|]. now apply Hentries.
Qed.

(** C8. In a reachable store, take the recipe that [add] has just created
    for a city. A DELETE of its id (the decimal text of the id) under that
    city, the city lookup succeeding, replies 204 and removes it and nothing
    else. Afterwards no 200 reply of GET infos for the city lists an entry
    with that id (for the revisions that convert ids with [parseInt], with
    ids in the exact range), and a second DELETE of the same id replies 404
    "Recipe not found" and leaves the store as it is. *)
Theorem delete_created_recipe (s : Store) (cityId : string) (content : JsVal)
  (upstream : list (option Response)) (resp : Response) :
  reachable s ->
  hd None upstream = Some resp -> ok resp = true ->
  let created := fst (recipeStorage.add cityId content s) in
  let s1 := snd (recipeStorage.add cityId content s) in
  let recipeId := Z_to_string (Recipe.id created) in
  let r := run upstream (delete_recipe cityUrl cityId recipeId) s1 in
  let not_listed reply :=
    exists doc entries,
      body reply = Some doc /\ Get doc "recipes" = Some (JArr entries)
      /\ forall e, In e entries ->
           Get e "id" <> Some (JNum (Int (Recipe.id created))) in
  In created (recipes s1)
  /\ outcome r = Some (mkReply 204 None)
  /\ calls r = [cityUrl cityId]
  /\ (forall recipe, In recipe (recipes (store r))
                     <-> In recipe (recipes s1) /\ recipe <> created)
  /\ ~ In (Recipe.id created) (stored_ids (store r))
  /\ (forall upstream' reply,
        outcome (run upstream' (IndexJs.get_infos cityId) (store r))
        = Some reply ->
        code reply = 200 -> not_listed reply)
  /\ (lastId s < TWO_53 ->
      forall upstream' reply,
        outcome (run upstream' (Part001.get_infos cityId) (store r))
        = Some reply
        \/ outcome (run upstream' (Part000.get_infos cityId) (store r))
           = Some reply ->
        code reply = 200 -> not_listed reply)
  /\ (forall upstream' resp',
        hd None upstream' = Some resp' -> ok resp' = true ->
        run upstream' (delete_recipe cityUrl cityId recipeId) (store r)
        = mkRun (Some (mkReply 404 (error "Recipe not found")))
                (store r) [cityUrl cityId]).
Proof.
  intros Hreach Hup Hok created s1 recipeId r not_listed.
  apply reachable_inv in Hreach.
  assert (Hinv1 : store_inv s1) by (apply add_inv; exact Hreach).
  assert (Hin : In created (recipes s1)).
  { subst s1 created. simpl. apply in_or_app. right. now left. }
  pose proof (getById_stored s1 created Hinv1 Hin) as Hget.
  destruct (deleteById_stored s1 created Hinv1 Hin)
    as (_ & Hlast & Hrest & Hgone).
  pose proof (deleteById_inv recipeId s1 Hinv1) as Hinv2.
  assert (Hr : r = mkRun (Some (mkReply 204 None))
                     (snd (recipeStorage.deleteById recipeId s1))
                     [cityUrl cityId]).
  { subst r. rewrite delete_recipe_run, Hup, Hok. fold recipeId in Hget.
    rewrite Hget. subst created. simpl. now rewrite String.eqb_refl. }
  assert (Hstore : store r = snd (recipeStorage.deleteById recipeId s1))
    by now rewrite Hr.
  assert (Hfresh : forall recipe, In recipe (recipes (store r)) ->
                     Recipe.id recipe <> Recipe.id created).
  { intros recipe Hrec E. apply Hgone.
    apply (in_map Recipe.id) in Hrec. rewrite E, Hstore in Hrec.
    exact Hrec. }
  split; [exact Hin|]. split; [now rewrite Hr|]. split; [now rewrite Hr|].
  split; [now rewrite Hstore|]. split; [now rewrite Hstore|].
  split; [|split].
  - intros upstream' reply H Hcode.
    destruct (IndexJs_listed_ids _ _ _ _ H Hcode)
      as (doc & entries & Hb & Hrecipes & Hids).
    exists doc, entries. split; [exact Hb|]. split; [exact Hrecipes|].
    intros e He E. destruct (Hids e He) as (recipe & Hrec & Hid).
    rewrite Hid in E. injection E as E. now apply (Hfresh recipe).
  - intros Hbound upstream' reply H Hcode.
    assert (Hle : lastId (store r) <= TWO_53).
    { rewrite Hstore. fold recipeId in Hlast. rewrite Hlast.
      subst s1. simpl. lia. }
    assert (Hinv : store_inv (store r)) by now rewrite Hstore.
    destruct (coerced_listed_ids _ _ _ _ Hinv Hle H Hcode)
      as (doc & entries & Hb & Hrecipes & Hids).
    exists doc, entries. split; [exact Hb|]. split; [exact Hrecipes|].
    intros e He E. destruct (Hids e He) as (recipe & Hrec & Hid).
    rewrite Hid in E. injection E as E. now apply (Hfresh recipe).
  - intros upstream' resp' Hup' Hok'.
    rewrite delete_recipe_run, Hup', Hok'.
    destruct (getById_unknown (store r) recipeId) as [-> _]; [|reflexivity].
    intros recipe Hrec. subst recipeId. rewrite parseInt_Z_to_string.
    intros E. injection E as E. now apply (Hfresh recipe).
Qed.

End CreateThenDelete.

(** ** Closed examples *)

Section Examples.
#[local] Existing Instance example_host.



(** C5 as stated fails: with the city existing, the reply to a DELETE of
    recipe 1, stored under "paris", asked under "rome", and the reply to a
    DELETE of recipe 7, stored nowhere, are both 404 and differ in their
    message. *)
Lemma delete_replies_distinguishable :
  recipeStorage.getById "1" example_store
  = Some (Recipe.make 1 (JStr "Bring garlic and oil") "paris")
  /\ recipeStorage.getById "7" example_store = None
  /\ outcome (run city_exists (IndexJs.delete_recipe "rome" "1") example_store)
     = Some (mkReply 404 (error "Recipe not found for this city"))
  /\ outcome (run city_exists (IndexJs.delete_recipe "rome" "7") example_store)
     = Some (mkReply 404 (error "Recipe not found"))
  /\ outcome (run city_exists (IndexJs.delete_recipe "rome" "1") example_store)
     <> outcome (run city_exists (IndexJs.delete_recipe "rome" "7") example_store).
Proof. repeat split; discriminate. Qed.

Lemma delete_other_city_is_404_example :
  hd None city_exists = Some (mkResponse 200 None)
  /\ ok (mkResponse 200 None) = true
  /\ run city_exists (IndexJs.delete_recipe "rome" "1") example_store
     = mkRun (Some (mkReply 404 (error "Recipe not found for this city")))
             example_store [IndexJs.cityUrl "rome"].
Proof.
  split; [reflexivity|]. split; [reflexivity|].
  refine (proj1 (delete_other_city_is_404 IndexJs.cityUrl "rome" "1"
                   city_exists example_store (mkResponse 200 None)
                   eq_refl eq_refl)
            (Recipe.make 1 (JStr "Bring garlic and oil") "paris") eq_refl _).
  discriminate.
Defined.

Lemma delete_created_recipe_example :
  reachable recipeStorage.initial
  /\ outcome (run city_exists
               (IndexJs.delete_recipe "paris" "1")
               (snd (recipeStorage.add "paris" (JStr "Bring garlic and oil")
                       recipeStorage.initial)))
     = Some (mkReply 204 None).
Proof.
  assert (H : reachable recipeStorage.initial) by (exists []; reflexivity).
  split; [exact H|].
  exact (proj1 (proj2 (delete_created_recipe IndexJs.cityUrl
                         recipeStorage.initial "paris"
                         (JStr "Bring garlic and oil") city_exists
                         (mkResponse 200 None) H eq_refl eq_refl))).
Defined.

(** POST [{content: "Short"}]: 400, too short, nothing fetched. *)
Lemma post_short_content_example :
  run city_exists
      (IndexJs.post_recipes "paris" (JObj [("content", JStr "Short")]))
      recipeStorage.initial
  = mkRun (Some (mkReply 400
             (error "Content is too short (minimum 10 characters)")))
          recipeStorage.initial [].
Proof.
  destruct (post_content_checks_in_order IndexJs.cityUrl "paris"
              (JObj [("content", JStr "Short")]) city_exists
              recipeStorage.initial) as (content & Hc & _ & Hshort & _).
  injection Hc as <-. apply Hshort; reflexivity.
Defined.

(** POST of a valid content for a city that the upstream does not know. *)
Lemma post_unknown_city_example :
  run [Some (mkResponse 404 None)]
      (IndexJs.post_recipes "atlantis"
         (JObj [("content", JStr "Bring garlic and oil")]))
      example_store
  = mkRun (Some (mkReply 404 (error "City not found"))) example_store
          [IndexJs.cityUrl "atlantis"].
Proof.
  exact (proj1 (post_city_not_found_keeps_store IndexJs.cityUrl "atlantis"
                  (JObj [("content", JStr "Bring garlic and oil")])
                  [Some (mkResponse 404 None)] example_store)
           (JStr "Bring garlic and oil") (mkResponse 404 None)
           eq_refl eq_refl eq_refl eq_refl eq_refl eq_refl).
Defined.

(** POST [{content: 42}] for an existing city: stored and echoed. *)
Lemma post_number_content_example :
  run city_exists (IndexJs.post_recipes "paris" (JObj [("content", JNum (Int 42))]))
      recipeStorage.initial
  = mkRun (Some (mkReply 201 (Some
             (JObj [("id", JNum (Int 1)); ("content", JNum (Int 42))]))))
          (mkStore [Recipe.make 1 (JNum (Int 42)) "paris"] 1)
          [IndexJs.cityUrl "paris"].
Proof.
  exact (proj1 (post_accepts_truthy_without_length IndexJs.cityUrl "paris"
                  (JObj [("content", JNum (Int 42))]) city_exists
                  recipeStorage.initial)
           (JNum (Int 42)) (mkResponse 200 None)
           eq_refl eq_refl eq_refl eq_refl eq_refl).
Defined.




End Examples.

(** * Further properties of the store *)

Lemma find_split {A : Type} (p : A -> bool) (l : list A) (x : A) :
  find p l = Some x ->
  exists before after,
    l = (before ++ x :: after)%list
    /\ (forall y, In y before -> p y = false)
    /\ p x = true
    /\ findIndex p l = Some (List.length before).
Proof.
  induction l as [|y l IH]; simpl; intros H; [discriminate|].
  destruct (p y) eqn:Ey.
  - injection H as ->. exists [], l. repeat split; [contradiction|exact Ey].
  - destruct (IH H) as (before & after & -> & Hb & Hx & Hi).
    exists (y :: before), after. rewrite Hi. repeat split; [|exact Hx].
    intros z [<-|Hz]; [exact Ey|now apply Hb].
Qed.

Lemma splice1_middle {A : Type} (before after : list A) (x : A) :
  splice1 (List.length before) (before ++ x :: after) = (before ++ after)%list.
Proof.
  unfold splice1. induction before as [|y before IH]; simpl; [reflexivity|].
  f_equal. exact IH.
Qed.

(** X1. [deleteById] removes what [getById] finds, and only that: when
    [getById] finds nothing, [deleteById] returns [false] and the store is
    the same; when it finds a recipe, that recipe is the first one in the
    array whose id matches, [deleteById] returns [true], takes exactly that
    element out, keeps the others in their order and leaves [lastId]. *)
Theorem deleteById_removes_what_getById_finds (id : string) (s : Store) :
  (recipeStorage.getById id s = None ->
   recipeStorage.deleteById id s = (false, s))
  /\ (forall recipe,
        recipeStorage.getById id s = Some recipe ->
        exists before after,
          recipes s = (before ++ recipe :: after)%list
          /\ (forall r, In r before -> recipeStorage.idMatches id r = false)
          /\ recipeStorage.idMatches id recipe = true
          /\ recipeStorage.deleteById id s
             = (true, mkStore (before ++ after) (lastId s)))
  /\ (fst (recipeStorage.deleteById id s) = true
      <-> recipeStorage.getById id s <> None).
Proof.
  unfold recipeStorage.getById, recipeStorage.deleteById.
  pose proof (findIndex_find (recipeStorage.idMatches id) (recipes s)) as Hf.
  split; [|split].
  - intros H. destruct (findIndex _ _); [|reflexivity].
    destruct Hf as [_ Hf]. contradiction.
  - intros recipe H.
    destruct (find_split _ _ _ H) as (before & after & El & Hb & Hx & Hi).
    exists before, after. rewrite Hi. repeat split; try assumption.
    f_equal. f_equal. rewrite El at 1. apply splice1_middle.
  - destruct (findIndex _ _); simpl.
    + destruct Hf as [_ Hf]. tauto.
    + rewrite Hf. split; [discriminate|congruence].
Qed.

Lemma find_app_found {A : Type} (p : A -> bool) (l l' : list A) (x : A) :
  find p l = Some x -> find p (l ++ l') = Some x.
Proof.
  induction l as [|y l IH]; simpl; [discriminate|].
  destruct (p y); [trivial|exact IH].
Qed.

Lemma add_getByCityId (s : Store) (cityId : string) (content : JsVal) :
  recipeStorage.getByCityId cityId (snd (recipeStorage.add cityId content s))
  = (recipeStorage.getByCityId cityId s
     ++ [fst (recipeStorage.add cityId content s)])%list.
Proof.
  unfold recipeStorage.getByCityId. simpl.
  rewrite filter_app. simpl. now rewrite String.eqb_refl.
Qed.

(** X2. What [add] appends can be looked up: in a reachable store, after
    [add(cityId, content)] the new recipe has id [lastId + 1] and the given
    city and content, [getById] of the text of its id returns it,
    [getByCityId] of its city returns the former recipes of the city
    followed by it, [getByCityId] of any other city is unchanged, and every
    lookup that succeeded before gives the same recipe. *)
Theorem add_then_lookup (s : Store) (cityId : string) (content : JsVal) :
  reachable s ->
  let created := fst (recipeStorage.add cityId content s) in
  let s1 := snd (recipeStorage.add cityId content s) in
  created = Recipe.make (lastId s + 1) content cityId
  /\ recipeStorage.getById (Z_to_string (Recipe.id created)) s1 = Some created
  /\ recipeStorage.getByCityId cityId s1
     = (recipeStorage.getByCityId cityId s ++ [created])%list
  /\ (forall other, other <> cityId ->
        recipeStorage.getByCityId other s1 = recipeStorage.getByCityId other s)
  /\ (forall id recipe,
        recipeStorage.getById id s = Some recipe ->
        recipeStorage.getById id s1 = Some recipe).
Proof.
  intros Hreach created s1. apply reachable_inv in Hreach.
  assert (Hinv1 : store_inv s1) by (apply add_inv; exact Hreach).
  split; [reflexivity|]. split; [|split; [|split]].
  - apply getById_stored; [exact Hinv1|].
    subst s1 created. simpl. apply in_or_app. right. now left.
  - apply add_getByCityId.
  - intros other Hne. subst s1. unfold recipeStorage.getByCityId. simpl.
    rewrite filter_app. simpl.
    apply not_eq_sym, String.eqb_neq in Hne. rewrite Hne.
    apply app_nil_r.
  - intros id recipe H. subst s1. unfold recipeStorage.getById in *. simpl.
    now apply find_app_found.
Qed.

Lemma sorted_filter_ids (p : Recipe -> bool) (l : list Recipe) :
  StronglySorted Z.lt (map Recipe.id l) ->
  StronglySorted Z.lt (map Recipe.id (filter p l)).
Proof.
  induction l as [|x l IH]; simpl; intros H; [constructor|].
  inversion H as [|? ? Hs Hf]; subst.
  destruct (p x); simpl; [|now apply IH].
  constructor; [now apply IH|].
  rewrite Forall_forall in *. intros z Hz. apply Hf.
  apply in_map_iff in Hz. destruct Hz as (r & <- & Hr).
  apply filter_In in Hr. apply in_map, Hr.
Qed.

(** X3. In a reachable store [getByCityId] returns exactly the stored
    recipes of that city (the comparison of city ids is exact, letter for
    letter), in the order of creation: their ids are strictly increasing,
    hence distinct. *)
Theorem getByCityId_in_creation_order (s : Store) (cityId : string) :
  reachable s ->
  (forall recipe,
     In recipe (recipeStorage.getByCityId cityId s)
     <-> In recipe (recipes s) /\ Recipe.cityId recipe = cityId)
  /\ StronglySorted Z.lt (map Recipe.id (recipeStorage.getByCityId cityId s))
  /\ NoDup (map Recipe.id (recipeStorage.getByCityId cityId s)).
Proof.
  intros Hreach. apply reachable_inv in Hreach. destruct Hreach as (Hs & _).
  assert (Hsorted : StronglySorted Z.lt
            (map Recipe.id (recipeStorage.getByCityId cityId s)))
    by (apply sorted_filter_ids; exact Hs).
  split; [|split; [exact Hsorted|now apply sorted_NoDup]].
  intros recipe. unfold recipeStorage.getByCityId. rewrite filter_In.
  now rewrite String.eqb_eq.
Qed.

Lemma deleteById_length (i : string) (s : Store) :
  (List.length (recipes (snd (recipeStorage.deleteById i s)))
   <= List.length (recipes s))%nat.
Proof.
  unfold recipeStorage.deleteById. destruct (findIndex _ _); simpl; [|lia].
  unfold splice1. rewrite length_app, length_firstn, length_skipn. lia.
Qed.

Lemma exec_provenance (ops : list StoreOp) :
  forall s recipe,
    In recipe (recipes (fst (exec ops s))) ->
    In recipe (recipes s)
    \/ exists before cityId content after,
         ops = (before ++ OpAdd cityId content :: after)%list
         /\ recipe = Recipe.make (lastId s + Z.of_nat (count_adds before) + 1)
                                 content cityId.
Proof.
  induction ops as [|[c x|i] ops IH]; intros s recipe H; cbn [exec] in H.
  - now left.
  - rewrite add_spec in H.
    destruct (exec ops _) as [final ids] eqn:E. simpl in H.
    specialize (IH (mkStore (recipes s ++ [Recipe.make (lastId s + 1) x c])
                            (lastId s + 1)) recipe).
    rewrite E in IH. destruct (IH H) as [Hin|(b & c' & x' & a & -> & ->)].
    + simpl in Hin. apply in_app_or in Hin. destruct Hin as [Hin|[<-|[]]].
      * now left.
      * right. exists [], c, x, ops. split; [reflexivity|].
        unfold count_adds. simpl. f_equal. lia.
    + right. exists (OpAdd c x :: b), c', x', a. split; [reflexivity|].
      unfold count_adds. simpl. f_equal. lia.
  - destruct (IH _ _ H) as [Hin|(b & c' & x' & a & -> & ->)].
    + left. now apply deleteById_incl in Hin.
    + right. exists (OpDelete i :: b), c', x', a. split; [reflexivity|].
      rewrite deleteById_lastId. reflexivity.
Qed.

Lemma exec_length (ops : list StoreOp) :
  forall s,
    (List.length (recipes (fst (exec ops s)))
     <= List.length (recipes s) + count_adds ops)%nat.
Proof.
  unfold count_adds.
  induction ops as [|[c x|i] ops IH]; intros s; cbn [exec filter List.length];
    [simpl; lia| |].
  - rewrite add_spec.
    specialize (IH (mkStore (recipes s ++ [Recipe.make (lastId s + 1) x c])
                            (lastId s + 1))).
    destruct (exec ops _). simpl in *. rewrite length_app in IH. simpl in IH.
    lia.
  - specialize (IH (snd (recipeStorage.deleteById i s))).
    pose proof (deleteById_length i s). lia.
Qed.

(** X4. The store never rewrites a recipe. After any sequence of [add] and
    [deleteById] from the initial store, [lastId] is the number of [add]s
    made, there are at most that many recipes, and every stored recipe is
    the one that some [add] of the sequence created: it has the city and the
    content given to that [add], and its id is the rank of that [add] among
    the [add]s. *)
Theorem stored_recipes_are_as_created (ops : list StoreOp) :
  let final := fst (exec ops recipeStorage.initial) in
  lastId final = Z.of_nat (count_adds ops)
  /\ (List.length (recipes final) <= count_adds ops)%nat
  /\ forall recipe,
       In recipe (recipes final) ->
       exists before cityId content after,
         ops = (before ++ OpAdd cityId content :: after)%list
         /\ recipe = Recipe.make (Z.of_nat (count_adds before) + 1)
                                 content cityId.
Proof.
  intros final. subst final. split; [|split].
  - now destruct (exec_ids ops recipeStorage.initial) as [_ ->].
  - apply (exec_length ops recipeStorage.initial).
  - intros recipe H.
    destruct (exec_provenance ops _ _ H) as [[]|Hex]. exact Hex.
Qed.

(** ** Texts that [parseInt] reads as an id *)

Lemma skip_ws_app (ws s : string) :
  all_white_space ws = true -> skip_ws (ws ++ s) = skip_ws s.
Proof.
  induction ws as [|c ws IH]; simpl; intros H; [reflexivity|].
  apply andb_true_iff in H. destruct H as [Hc Hws]. rewrite Hc. now apply IH.
Qed.

Lemma parseInt_skips_white_space (ws s : string) :
  all_white_space ws = true ->
  parseInt_string (ws ++ s) = parseInt_string s.
Proof. intros H. unfold parseInt_string. now rewrite skip_ws_app. Qed.

Lemma parse_digits_stop (suffix : string) (acc : option Z) :
  ends_numeral suffix = true -> parse_digits 10 suffix acc = acc.
Proof.
  destruct suffix as [|c rest]; simpl; [reflexivity|].
  destruct (digit_value c) as [d|]; [|reflexivity].
  destruct (d <? 10); [discriminate|reflexivity].
Qed.

Lemma parse_digits_uint_suffix (d : uint) (suffix : string) :
  ends_numeral suffix = true ->
  forall acc, parse_digits 10 (NilEmpty.string_of_uint d ++ suffix) (Some acc)
              = Some (uint_val d acc).
Proof.
  intros Hs. induction d; intros acc; simpl;
    [now apply parse_digits_stop|..]; apply IHd.
Qed.

Lemma parseInt_uint_suffix (d : uint) (suffix : string) :
  d <> Nil -> d <> D0 Nil -> ends_numeral suffix = true ->
  parseInt_string (NilEmpty.string_of_uint d ++ suffix) = Int (uint_val d 0).
Proof.
  intros Hd H0 Hs. destruct d as [|d|d|d|d|d|d|d|d|d|d]; [congruence|..];
    try (unfold parseInt_string; simpl; rewrite parse_digits_uint_suffix by exact Hs;
         f_equal; now destruct (uint_val _ _)).
  destruct d; [congruence|..];
    unfold parseInt_string; simpl; rewrite parse_digits_uint_suffix by exact Hs;
    f_equal; now destruct (uint_val _ _).
Qed.

Lemma parseInt_positive_text (z : Z) (ws suffix : string) :
  0 < z -> all_white_space ws = true -> ends_numeral suffix = true ->
  parseInt_string (ws ++ Z_to_string z ++ suffix) = Int z.
Proof.
  intros Hz Hws Hs. rewrite parseInt_skips_white_space by exact Hws.
  destruct z as [|p|p]; try lia. unfold Z_to_string. simpl.
  pose proof (Unsigned.to_uint_nonnil p) as Hn.
  pose proof (Unsigned.to_uint_nonzero p) as Hnz.
  unfold NilZero.string_of_uint.
  destruct (Pos.to_uint p) eqn:Ep; [congruence|..];
    rewrite parseInt_uint_suffix by (assumption || discriminate);
    rewrite uint_val_0, <- Ep, Unsigned.of_to; reflexivity.
Qed.

(** X5. The id in a path is read by [parseInt], which skips leading white
    space and stops at the first character that is not a decimal digit. In a
    reachable store, for a stored recipe, any text made of white space, the
    decimal digits of its id and a rest that does not start with a digit
    (such as "1abc" or " 1.5" for recipe 1) is read as that id: [getById]
    returns that recipe and [deleteById] removes exactly it. *)
Theorem id_text_is_read_leniently (s : Store) (recipe : Recipe)
  (ws suffix : string) :
  reachable s -> In recipe (recipes s) ->
  all_white_space ws = true -> ends_numeral suffix = true ->
  let text := ws ++ Z_to_string (Recipe.id recipe) ++ suffix in
  parseInt_string text = Int (Recipe.id recipe)
  /\ recipeStorage.getById text s = Some recipe
  /\ fst (recipeStorage.deleteById text s) = true
  /\ (forall r, In r (recipes (snd (recipeStorage.deleteById text s)))
                <-> In r (recipes s) /\ r <> recipe).
Proof.
  intros Hreach Hin Hws Hs text. apply reachable_inv in Hreach.
  assert (Hpos : 0 < Recipe.id recipe).
  { destruct Hreach as (_ & Hb & _). rewrite Forall_forall in Hb.
    specialize (Hb _ (in_map Recipe.id _ _ Hin)). lia. }
  assert (Hparse : parseInt_string text = Int (Recipe.id recipe))
    by now apply parseInt_positive_text.
  assert (Hsame : forall r, recipeStorage.idMatches text r
                  = recipeStorage.idMatches (Z_to_string (Recipe.id recipe)) r).
  { intros r. unfold recipeStorage.idMatches.
    now rewrite Hparse, parseInt_Z_to_string. }
  destruct (find_ext_in _ _ (recipes s) Hsame) as [Hfind Hindex].
  assert (Hdel : recipeStorage.deleteById text s
                 = recipeStorage.deleteById (Z_to_string (Recipe.id recipe)) s).
  { unfold recipeStorage.deleteById. now rewrite Hindex. }
  destruct (deleteById_stored s recipe Hreach Hin) as (H1 & _ & H3 & _).
  split; [exact Hparse|]. split.
  - unfold recipeStorage.getById. rewrite Hfind.
    now apply getById_stored.
  - rewrite Hdel. split; [exact H1|exact H3].
Qed.

(** * Further properties of the recipe handlers *)

Section RecipeHandlerProperties.
Context {host : Host}.
Variable cityUrl : string -> string.

(** X6. Every DELETE makes exactly one upstream call, the city lookup,
    before it looks at the recipe id, and always replies. When the lookup
    answers 404 the reply is 404 "City not found" whatever the recipe id;
    when it fails otherwise the reply is 500; in both cases the store is
    untouched. The reply is 204, one of the three 404s or the 500. The store
    changes only with the 204, and then it loses exactly one recipe and
    keeps [lastId]. *)
Theorem delete_replies (cityId recipeId : string)
  (upstream : list (option Response)) (s : Store) :
  let r := run upstream (delete_recipe cityUrl cityId recipeId) s in
  calls r = [cityUrl cityId]
  /\ (forall resp, hd None upstream = Some resp -> status resp = 404 ->
        outcome r = Some (mkReply 404 (error "City not found")) /\ store r = s)
  /\ (hd None upstream = None
      \/ (exists resp, hd None upstream = Some resp
                       /\ ok resp = false /\ status resp <> 404) ->
      outcome r = Some (mkReply 500 (error "Internal server error"))
      /\ store r = s)
  /\ (exists reply,
        outcome r = Some reply
        /\ (reply = mkReply 204 None
            \/ reply = mkReply 404 (error "City not found")
            \/ reply = mkReply 404 (error "Recipe not found")
            \/ reply = mkReply 404 (error "Recipe not found for this city")
            \/ reply = mkReply 500 (error "Internal server error")))
  /\ (store r = s
      \/ outcome r = Some (mkReply 204 None)
         /\ lastId (store r) = lastId s
         /\ S (List.length (recipes (store r))) = List.length (recipes s)
         /\ (forall x, In x (recipes (store r)) -> In x (recipes s))).
Proof.
  intros r. subst r. rewrite delete_recipe_run.
  split; [|split; [|split; [|split]]].
  - destruct (hd None upstream) as [resp|]; [|reflexivity].
    destruct (ok resp); [|now destruct (status resp =? 404)].
    destruct (recipeStorage.getById recipeId s) as [recipe|]; [|reflexivity].
    now destruct (Recipe.cityId recipe =? cityId)%string.
  - intros resp -> E. unfold ok. rewrite E. now split.
  - intros [->|(resp & -> & -> & Hne)]; [now split|].
    apply Z.eqb_neq in Hne. rewrite Hne. now split.
  - assert (Hany : forall reply s' l,
              reply = mkReply 204 None
              \/ reply = mkReply 404 (error "City not found")
              \/ reply = mkReply 404 (error "Recipe not found")
              \/ reply = mkReply 404 (error "Recipe not found for this city")
              \/ reply = mkReply 500 (error "Internal server error") ->
              exists reply', outcome (mkRun (Some reply) s' l) = Some reply'
                /\ (reply' = mkReply 204 None
                    \/ reply' = mkReply 404 (error "City not found")
                    \/ reply' = mkReply 404 (error "Recipe not found")
                    \/ reply' = mkReply 404
                                  (error "Recipe not found for this city")
                    \/ reply' = mkReply 500 (error "Internal server error")))
      by (intros reply s' l H; exists reply; now split).
    destruct (hd None upstream) as [resp|]; [|apply Hany; auto 6].
    destruct (ok resp);
      [|destruct (status resp =? 404); apply Hany; auto 6].
    destruct (recipeStorage.getById recipeId s) as [recipe|];
      [|apply Hany; auto 6].
    destruct (Recipe.cityId recipe =? cityId)%string; apply Hany; auto 6.
  - destruct (hd None upstream) as [resp|]; [|now left].
    destruct (ok resp); [|destruct (status resp =? 404); now left].
    destruct (recipeStorage.getById recipeId s) as [recipe|] eqn:Hget;
      [|now left].
    destruct (Recipe.cityId recipe =? cityId)%string; [|now left].
    right. unfold recipeStorage.getById in Hget.
    destruct (find_split _ _ _ Hget) as (before & after & El & _ & _ & Hi).
    assert (Hsp : splice1 (List.length before) (recipes s)
                  = (before ++ after)%list)
      by (rewrite El; apply splice1_middle).
    unfold recipeStorage.deleteById. rewrite Hi, Hsp.
    cbn [snd outcome store recipes lastId].
    split; [reflexivity|]. split; [reflexivity|]. split.
    + rewrite El, !length_app. simpl. lia.
    + intros x Hx. rewrite El. apply in_app_or in Hx.
      apply in_or_app. simpl. tauto.
Qed.

(** X7. A POST whose content passes the checks makes exactly one upstream
    call, the city lookup, and a POST that is refused with a 400 makes none.
    When the lookup fails on the network or answers a status outside 200-299
    other than 404, the reply is 500 "Internal server error" and nothing is
    stored. The code of a reply is 400, 201, 404 or 500. *)
Theorem post_upstream_failure (cityId : string) (body : JsVal)
  (upstream : list (option Response)) (s : Store) :
  let r := run upstream (post_recipes cityUrl cityId body) s in
  (forall content,
     body_content body = Some content -> ToBoolean content = true ->
     too_short content = Some false -> too_long content = Some false ->
     calls r = [cityUrl cityId]
     /\ (hd None upstream = None
         \/ (exists resp, hd None upstream = Some resp
                          /\ ok resp = false /\ status resp <> 404) ->
         outcome r = Some (mkReply 500 (error "Internal server error"))
         /\ store r = s))
  /\ (forall reply, outcome r = Some reply -> code reply = 400 -> calls r = [])
  /\ (forall reply,
        outcome r = Some reply ->
        code reply = 400 \/ code reply = 201
        \/ reply = mkReply 404 (error "City not found")
        \/ reply = mkReply 500 (error "Internal server error")).
Proof.
  intros r. subst r. rewrite post_recipes_run. split; [|split].
  - intros content -> -> -> ->. cbn [negb]. split.
    + destruct (hd None upstream) as [resp|]; [|reflexivity].
      destruct (ok resp); [reflexivity|now destruct (status resp =? 404)].
    + intros [->|(resp & -> & -> & Hne)]; [now split|].
      apply Z.eqb_neq in Hne. rewrite Hne. now split.
  - intros reply H Hcode.
    destruct (body_content body) as [content|]; [|reflexivity].
    destruct (negb (ToBoolean content)); [reflexivity|].
    destruct (too_short content) as [[|]|]; try reflexivity.
    destruct (too_long content) as [[|]|]; try reflexivity.
    exfalso. destruct (hd None upstream) as [resp|];
      [destruct (ok resp); [|destruct (status resp =? 404)]|];
      cbn in H; injection H as <-; discriminate.
  - intros reply H.
    destruct (body_content body) as [content|]; [|discriminate].
    destruct (negb (ToBoolean content)); [injection H as <-; now left|].
    destruct (too_short content) as [[|]|];
      [injection H as <-; now left| |discriminate].
    destruct (too_long content) as [[|]|];
      [injection H as <-; now left| |discriminate].
    destruct (hd None upstream) as [resp|];
      [destruct (ok resp); [|destruct (status resp =? 404)]|];
      injection H as <-; auto.
Qed.

(** X8. The three content checks of the POST handler run before its [try]
    block. The handler lets an exception escape, without replying, exactly
    when the content is truthy and one of the two comparisons of its
    [length] throws (a [length] that is an object with no conversion to a
    number); then nothing was fetched and nothing was stored. With a text,
    a number, a boolean or [null] as content this never happens. *)
Theorem post_exception_escapes (cityId : string) (body : JsVal)
  (upstream : list (option Response)) (s : Store) :
  let r := run upstream (post_recipes cityUrl cityId body) s in
  (outcome r = None <->
   exists content,
     body_content body = Some content /\ ToBoolean content = true
     /\ (too_short content = None
         \/ too_short content = Some false /\ too_long content = None))
  /\ (outcome r = None -> calls r = [] /\ store r = s)
  /\ (forall content,
        body_content body = Some content ->
        match content with
        | JObj _ | JArr _ => True
        | _ => outcome r <> None
        end).
Proof.
  intros r. subst r. rewrite post_recipes_run.
  destruct (body_content_total body) as [content Hc]. rewrite Hc.
  assert (Hrun : forall resp' : option Response,
            outcome
              match resp' with
              | Some resp =>
                  if ok resp
                  then mkRun (Some (mkReply 201 (Some
                         (JObj [("id", JNum (Int (lastId s + 1)));
                                ("content", content)]))))
                         (snd (recipeStorage.add cityId content s))
                         [cityUrl cityId]
                  else if status resp =? 404
                       then mkRun (Some (mkReply 404 (error "City not found")))
                                  s [cityUrl cityId]
                       else mkRun (Some (mkReply 500
                                     (error "Internal server error")))
                                  s [cityUrl cityId]
              | None => mkRun (Some (mkReply 500 (error "Internal server error")))
                              s [cityUrl cityId]
              end <> None).
  { intros [resp|]; [destruct (ok resp); [|destruct (status resp =? 404)]|];
      discriminate. }
  split; [|split].
  - split.
    + intros H. exists content. split; [reflexivity|].
      destruct (ToBoolean content); cbn [negb] in H; [|discriminate].
      split; [reflexivity|].
      destruct (too_short content) as [[|]|]; [discriminate| |now left].
      destruct (too_long content) as [[|]|]; [discriminate| |now right].
      now apply Hrun in H.
    + intros (content' & E & Ht & Hthrow). injection E as <-.
      rewrite Ht. cbn [negb].
      destruct Hthrow as [->|[-> ->]]; reflexivity.
  - intros H. destruct (negb (ToBoolean content)); [discriminate|].
    destruct (too_short content) as [[|]|]; [discriminate| |now split].
    destruct (too_long content) as [[|]|]; [discriminate| |now split].
    now apply Hrun in H.
  - intros content' E. injection E as <-.
    destruct content as [| |b|n|text|items|props]; trivial;
      try discriminate.
    + destruct (negb (ToBoolean (JBool b))); [discriminate|].
      replace (too_short (JBool b)) with (Some false) by reflexivity.
      replace (too_long (JBool b)) with (Some false) by reflexivity.
      apply Hrun.
    + destruct (negb (ToBoolean (JNum n))); [discriminate|].
      replace (too_short (JNum n)) with (Some false) by reflexivity.
      replace (too_long (JNum n)) with (Some false) by reflexivity.
      apply Hrun.
    + destruct (negb (ToBoolean (JStr text))); [discriminate|].
      destruct (text_checks text) as (_ & -> & ->).
      destruct (_ <? 10); [discriminate|].
      destruct (2000 <? _); [discriminate|]. apply Hrun.
Qed.

End RecipeHandlerProperties.

(** * Further properties of the GET handlers *)

Section GetHandlerProperties.
Context {host : Host}.

(** X10. GET /cities/:cityId/infos only reads the store: in each of the
    three revisions, whatever the upstream answers and whatever the reply,
    the store after the request is the store before it. *)
Theorem get_infos_reads_only (cityId : string)
  (upstream : list (option Response)) (s : Store) :
  store (run upstream (IndexJs.get_infos cityId) s) = s
  /\ store (run upstream (Part001.get_infos cityId) s) = s
  /\ store (run upstream (Part000.get_infos cityId) s) = s.
Proof.
  split; [apply IndexJs_get_infos_run|].
  split; [apply Part001_get_infos_run|apply Part000_get_infos_run].
Qed.

Lemma map_throwing_length {A B : Type} (f : A -> option B) (l : list A)
  (l' : list B) :
  map_throwing f l = Some l' -> List.length l' = List.length l.
Proof.
  revert l'; induction l as [|x l IH]; simpl; intros l' H.
  - now injection H as <-.
  - destruct (f x); [|discriminate].
    destruct (map_throwing f l) as [t|]; [|discriminate].
    injection H as <-. simpl. f_equal. now apply IH.
Qed.

Lemma IndexJs_get_infos_recipes (cityId : string)
  (upstream : list (option Response)) (s : Store) (reply : Reply) :
  code reply = 200 ->
  outcome (run upstream (IndexJs.get_infos cityId) s) = Some reply ->
  exists doc,
    body reply = Some doc
    /\ Get doc "recipes"
       = Some (JArr (map recipe_json (recipeStorage.getByCityId cityId s))).
Proof.
  intros Hcode H.
  destruct (IndexJs_get_infos_run cityId upstream s)
    as [_ [Hf|[[Hn _]|Hdoc]]].
  - rewrite Hf in H. injection H as <-. discriminate Hcode.
  - rewrite Hn in H. injection H as <-. discriminate Hcode.
  - destruct Hdoc as (? & ? & ? & ? & ? & ? & ? & ? & ? & ? & ? & ? & ?
                      & Hout & _).
    rewrite Hout in H. injection H as <-. eexists. now split.
Qed.

Lemma Part001_get_infos_recipes (cityId : string)
  (upstream : list (option Response)) (s : Store) (reply : Reply) :
  code reply = 200 ->
  outcome (run upstream (Part001.get_infos cityId) s) = Some reply ->
  exists doc entries,
    body reply = Some doc
    /\ Get doc "recipes" = Some (JArr entries)
    /\ map_throwing recipe_json_coerced
         (recipeStorage.getByCityId cityId s) = Some entries.
Proof.
  intros Hcode H.
  destruct (Part001_get_infos_run cityId upstream s)
    as [_ [Hf|[[Hn _]|Hdoc]]].
  - rewrite Hf in H. injection H as <-. discriminate Hcode.
  - rewrite Hn in H. injection H as <-. discriminate Hcode.
  - destruct Hdoc as (? & ? & ? & ? & ? & ? & ? & ? & ? & ? & ? & ? & ? & ?
                      & entries & Hout & ? & ? & ? & ? & ? & ? & ? & ? & ?
                      & ? & ? & ? & ? & He).
    rewrite Hout in H. injection H as <-. eexists _, entries.
    repeat split; exact He.
Qed.

Lemma Part000_get_infos_recipes (cityId : string)
  (upstream : list (option Response)) (s : Store) (reply : Reply) :
  code reply = 200 ->
  outcome (run upstream (Part000.get_infos cityId) s) = Some reply ->
  exists doc entries,
    body reply = Some doc
    /\ Get doc "recipes" = Some (JArr entries)
    /\ map_throwing recipe_json_coerced
         (recipeStorage.getByCityId cityId s) = Some entries.
Proof.
  intros Hcode H.
  destruct (Part000_get_infos_run cityId upstream s)
    as [_ [Hf|[[Hn _]|Hdoc]]].
  - rewrite Hf in H. injection H as <-. discriminate Hcode.
  - rewrite Hn in H. injection H as <-. discriminate Hcode.
  - destruct Hdoc as (? & ? & ? & ? & ? & ? & ? & ? & ? & ? & ? & ?
                      & entries & Hout & ? & ? & ? & ? & ? & ? & ? & ? & He).
    rewrite Hout in H. injection H as <-. eexists _, entries.
    repeat split; exact He.
Qed.

(** X12. A 200 reply of GET infos lists the stored recipes of the
    requested city, all of them and no other, in the order of the store. In
    [src/index.js] the [recipes] field is the array of their [{id, content}]
    as stored. In the two revisions that convert, it is the array of their
    [{id: parseInt(id), content: String(content)}], one entry per recipe;
    there the reply is a 200 only if every content has a text. *)
Theorem get_infos_lists_city_recipes (cityId : string)
  (upstream : list (option Response)) (s : Store) (reply : Reply) :
  code reply = 200 ->
  (outcome (run upstream (IndexJs.get_infos cityId) s) = Some reply ->
   exists doc,
     body reply = Some doc
     /\ Get doc "recipes"
        = Some (JArr (map recipe_json (recipeStorage.getByCityId cityId s))))
  /\ (outcome (run upstream (Part001.get_infos cityId) s) = Some reply
      \/ outcome (run upstream (Part000.get_infos cityId) s) = Some reply ->
      exists doc entries,
        body reply = Some doc
        /\ Get doc "recipes" = Some (JArr entries)
        /\ map_throwing recipe_json_coerced
             (recipeStorage.getByCityId cityId s) = Some entries
        /\ List.length entries
           = List.length (recipeStorage.getByCityId cityId s)).
Proof.
  intros Hcode. split; [now apply IndexJs_get_infos_recipes|].
  intros [H|H];
    [apply (Part001_get_infos_recipes _ _ _ _ Hcode) in H
    |apply (Part000_get_infos_recipes _ _ _ _ Hcode) in H];
    destruct H as (doc & entries & Hb & Hr & He);
    exists doc, entries; repeat split; trivial;
    now apply map_throwing_length in He.
Qed.

(** X15. [src/index.js] forwards what the upstream sent. In every 200 reply
    of its GET handler, both upstream answers had a status in 200-299 and a
    readable body, and the fields [coordinates], [population] and [knownFor]
    of the document are those of the city payload, unchanged and unchecked,
    and the [min] and [max] of the two predictions are those of [today] and
    [tomorrow] in the weather payload. *)
Theorem index_js_forwards_payload (cityId : string)
  (upstream : list (option Response)) (s : Store) (reply : Reply) :
  outcome (run upstream (IndexJs.get_infos cityId) s) = Some reply ->
  code reply = 200 ->
  exists cityResponse weatherResponse cityData weatherData doc
         today tomorrow today' tomorrow',
    hd None upstream = Some cityResponse /\ ok cityResponse = true
    /\ json cityResponse = Some cityData
    /\ hd None (tl upstream) = Some weatherResponse
    /\ ok weatherResponse = true
    /\ json weatherResponse = Some weatherData
    /\ body reply = Some doc
    /\ Get doc "coordinates" = Get cityData "coordinates"
    /\ Get doc "population" = Get cityData "population"
    /\ Get doc "knownFor" = Get cityData "knownFor"
    /\ Get weatherData "today" = Some today
    /\ Get weatherData "tomorrow" = Some tomorrow
    /\ Get doc "weatherPredictions" = Some (JArr [today'; tomorrow'])
    /\ Get today' "min" = Get today "min"
    /\ Get today' "max" = Get today "max"
    /\ Get tomorrow' "min" = Get tomorrow "min"
    /\ Get tomorrow' "max" = Get tomorrow "max".
Proof.
  intros H Hcode.
  destruct (IndexJs_get_infos_run cityId upstream s) as [_ [Hf|[[Hn _]|Hdoc]]].
  - rewrite Hf in H. injection H as <-. discriminate Hcode.
  - rewrite Hn in H. injection H as <-. discriminate Hcode.
  - destruct Hdoc as (r1 & r2 & cityData & weatherData & c & p & k
                      & today & tomorrow & a & b & c' & d & Hout
                      & H1 & Hok1 & Hj1 & H2 & Hok2 & Hj2
                      & Hc & Hp & Hk & Ht & Hm & Ha & Hb & Hc' & Hd).
    rewrite Hout in H. injection H as <-.
    exists r1, r2, cityData, weatherData,
      (infos c p k (prediction "today" a b) (prediction "tomorrow" c' d)
         (map recipe_json (recipeStorage.getByCityId cityId s))),
      today, tomorrow, (prediction "today" a b), (prediction "tomorrow" c' d).
    rewrite Hc, Hp, Hk, Ha, Hb, Hc', Hd.
    repeat split; assumption.
Qed.

(** X13. The weather validation of [src/unnamed/part_001] passes exactly
    when the payload has a [today] and a [tomorrow] whose [min] and [max]
    are numbers, and throws otherwise; nothing relates [min] to [max]. A
    payload that is [null], or whose [today] is missing, is refused. *)
Theorem weather_validation_shape (weatherData : JsVal) :
  (Part001.validate_weather weatherData = Ret tt <->
   exists today tomorrow todayMin todayMax tomorrowMin tomorrowMax,
     Get weatherData "today" = Some today
     /\ Get weatherData "tomorrow" = Some tomorrow
     /\ Get today "min" = Some (JNum todayMin)
     /\ Get today "max" = Some (JNum todayMax)
     /\ Get tomorrow "min" = Some (JNum tomorrowMin)
     /\ Get tomorrow "max" = Some (JNum tomorrowMax))
  /\ (Part001.validate_weather weatherData = Ret tt
      \/ Part001.validate_weather weatherData = Throw)
  /\ (Get weatherData "today" = None
      \/ Get weatherData "today" = Some JUndefined
      \/ Get weatherData "tomorrow" = Some JUndefined ->
      Part001.validate_weather weatherData = Throw).
Proof.
  split; [apply Part001_validate_weather_iff|].
  split; [apply Part001_validate_weather_cases|].
  intros H.
  destruct (Part001_validate_weather_cases weatherData) as [Hv|Hv];
    [|exact Hv].
  exfalso. apply Part001_validate_weather_iff in Hv.
  destruct Hv as (today & tomorrow & a & b & c & d
                  & Ht & Hm & Ha & _ & Hc & _).
  destruct H as [H|[H|H]].
  - congruence.
  - rewrite H in Ht. injection Ht as <-. discriminate Ha.
  - rewrite H in Hm. injection Hm as <-. discriminate Hc.
Qed.

Lemma map_throwing_snoc {A B : Type} (f : A -> option B) (l : list A)
  (x : A) (l' : list B) :
  map_throwing f (l ++ [x]) = Some l' ->
  exists l0 y, map_throwing f l = Some l0 /\ f x = Some y
               /\ l' = (l0 ++ [y])%list.
Proof.
  revert l'; induction l as [|z l IH]; simpl; intros l' H.
  - destruct (f x) as [y|]; [|discriminate]. injection H as <-.
    now exists [], y.
  - destruct (f z) as [w|]; [|discriminate].
    destruct (map_throwing f (l ++ [x])) as [t|]; [|discriminate].
    injection H as <-.
    destruct (IH t eq_refl) as (l0 & y & -> & Hy & ->).
    now exists (w :: l0), y.
Qed.

(** X9. A recipe that a POST has created is listed by the next GET infos
    of its city. In a reachable store, after a POST that replies 201, every
    200 reply of GET infos for that city has, as the last entry of
    [recipes], the new recipe: in [src/index.js] its id and its content as
    posted; in [src/unnamed/part_001], for a text content and ids in the
    exact range, its id and that text. The entries before it are those
    listed before the POST. *)
Theorem post_then_get_lists_recipe (s : Store) (cityId : string)
  (payload content : JsVal) (posting asking : list (option Response))
  (resp : Response) :
  reachable s ->
  body_content payload = Some content -> ToBoolean content = true ->
  too_short content = Some false -> too_long content = Some false ->
  hd None posting = Some resp -> ok resp = true ->
  let entry := JObj [("id", JNum (Int (lastId s + 1))); ("content", content)] in
  let posted := run posting (IndexJs.post_recipes cityId payload) s in
  let posted' := run posting (Part001.post_recipes cityId payload) s in
  outcome posted = Some (mkReply 201 (Some entry))
  /\ outcome posted' = Some (mkReply 201 (Some entry))
  /\ (forall reply,
        outcome (run asking (IndexJs.get_infos cityId) (store posted))
        = Some reply ->
        code reply = 200 ->
        exists doc,
          body reply = Some doc
          /\ Get doc "recipes"
             = Some (JArr (map recipe_json (recipeStorage.getByCityId cityId s)
                           ++ [entry])))
  /\ (forall text reply,
        content = JStr text -> lastId s < TWO_53 ->
        outcome (run asking (Part001.get_infos cityId) (store posted'))
        = Some reply ->
        code reply = 200 ->
        exists doc before,
          body reply = Some doc
          /\ map_throwing recipe_json_coerced
               (recipeStorage.getByCityId cityId s) = Some before
          /\ Get doc "recipes" = Some (JArr (before ++ [entry]))).
Proof.
  intros Hreach Hc Ht Hs Hl Hup Hok entry posted posted'.
  assert (Hposted : posted = mkRun (Some (mkReply 201 (Some entry)))
                             (snd (recipeStorage.add cityId content s))
                             [IndexJs.cityUrl cityId]).
  { subst posted. unfold IndexJs.post_recipes.
    now rewrite post_recipes_run, Hc, Ht, Hs, Hl, Hup, Hok. }
  assert (Hposted' : posted' = mkRun (Some (mkReply 201 (Some entry)))
                               (snd (recipeStorage.add cityId content s))
                               [Part001.cityUrl cityId]).
  { subst posted'. unfold Part001.post_recipes.
    now rewrite post_recipes_run, Hc, Ht, Hs, Hl, Hup, Hok. }
  pose proof (add_getByCityId s cityId content) as Hcity.
  split; [now rewrite Hposted|]. split; [now rewrite Hposted'|]. split.
  - intros reply H Hcode. rewrite Hposted in H. cbn [store] in H.
    destruct (IndexJs_get_infos_recipes _ _ _ _ Hcode H)
      as (doc & Hb & Hrecipes).
    exists doc. split; [exact Hb|]. rewrite Hrecipes, Hcity, map_app.
    reflexivity.
  - intros text reply -> Hbound H Hcode. rewrite Hposted' in H.
    cbn [store] in H.
    destruct (Part001_get_infos_recipes _ _ _ _ Hcode H)
      as (doc & entries & Hb & Hrecipes & He).
    rewrite Hcity in He.
    destruct (map_throwing_snoc _ _ _ _ He) as (before & y & Hbefore & Hy & ->).
    exists doc, before. split; [exact Hb|]. split; [exact Hbefore|].
    rewrite Hrecipes. do 3 f_equal.
    unfold recipe_json_coerced in Hy. cbn [fst recipeStorage.add Recipe.id
      Recipe.content ToString] in Hy.
    destruct (parseInt_integer (lastId s + 1)) as (z & Hz & Hexact).
    rewrite Hz in Hy. injection Hy as <-.
    apply reachable_inv in Hreach. destruct Hreach as (_ & _ & H0).
    rewrite Hexact by (unfold TWO_53 in *; lia). reflexivity.
Qed.

(** ** The upstream requests *)

Ltac handler_reduce :=
  repeat first
    [ progress (cbv beta delta [read_json fetch call city_lookup internal_error];
                cbn [bind try_catch run eval negb fst snd
                     GetIndex nth ToString ToNumber option_map])
    | match goal with
      | H : ?l = _ |- context [?l] => rewrite H
      end ].

Ltac fetch_leaf :=
  unfold fetched_in_order, after_fetch; cbn [outcome store calls].

Ltac only_city :=
  fetch_leaf; left; split;
  [reflexivity|intros ? [= <-]; discriminate].

Lemma IndexJs_get_infos_fetches (cityId : string)
  (upstream : list (option Response)) (s : Store) :
  fetched_in_order (IndexJs.cityUrl cityId) IndexJs_weather_of upstream
    (run upstream (IndexJs.get_infos cityId) s).
Proof.
  unfold IndexJs.get_infos. rewrite run_city_lookup.
  destruct (hd None upstream) as [r1|] eqn:H1; [|only_city].
  destruct (ok r1) eqn:Hok1;
    [|destruct (status r1 =? 404) eqn:E404; only_city].
  handler_cases; try only_city;
    fetch_leaf; right; exists r1; eexists _, _;
    (split; [exact H1|]); (split; [exact Hok1|]);
    (split; [eassumption|]); (split; [|reflexivity]);
    unfold IndexJs_weather_of; repeat eexists; eassumption.
Qed.

Lemma Part001_get_infos_fetches (cityId : string)
  (upstream : list (option Response)) (s : Store) :
  fetched_in_order (Part001.insightsUrl cityId) Part001_weather_of upstream
    (run upstream (Part001.get_infos cityId) s).
Proof.
  unfold Part001.get_infos. rewrite run_city_lookup.
  destruct (hd None upstream) as [r1|] eqn:H1; [|only_city].
  destruct (ok r1) eqn:Hok1;
    [|destruct (status r1 =? 404) eqn:E404; only_city].
  destruct (json r1) as [cityData|] eqn:Hj1; handler_reduce; [|only_city].
  destruct (Part001_validate_city_cases cityData) as [Hvc|Hvc];
    rewrite Hvc; handler_reduce; [|only_city].
  pose proof Hvc as Hshape. apply Part001_validate_city_iff in Hshape.
  destruct Hshape as (lat & lon & p & items & Hc & Hp & Hk).
  handler_reduce.
  assert (Hgoal : forall rest : Run Reply,
    fetched_in_order (Part001.insightsUrl cityId) Part001_weather_of upstream
      (after_fetch (Part001.insightsUrl cityId)
         (after_fetch
            (Part001.weatherUrl (NumberToString lat) (NumberToString lon))
            (mkRun (outcome rest) (store rest) [])))).
  { intros rest. fetch_leaf. right. exists r1, cityData. eexists.
    repeat split; try eassumption. exists lat, lon. now repeat split. }
  destruct (hd None (tl upstream)) as [r2|] eqn:H2; handler_reduce;
    [|exact (Hgoal (mkRun _ _ []))].
  destruct (ok r2) eqn:Hok2; handler_reduce; [|exact (Hgoal (mkRun _ _ []))].
  destruct (json r2) as [weatherData|] eqn:Hj2; handler_reduce;
    [|exact (Hgoal (mkRun _ _ []))].
  destruct (Part001_validate_weather_cases weatherData) as [Hvw|Hvw];
    rewrite Hvw; handler_reduce; [|exact (Hgoal (mkRun _ _ []))].
  pose proof Hvw as Hshape. apply Part001_validate_weather_iff in Hshape.
  destruct Hshape as (today & tomorrow & a & b & c & d
                      & Ht & Hm & Ha & Hb & Hc' & Hd).
  destruct (map_throwing recipe_json_coerced
              (recipeStorage.getByCityId cityId s)) as [entries|] eqn:He;
    handler_reduce; [|exact (Hgoal (mkRun _ _ []))].
  unfold Part001.format_response, map_String, number. handler_reduce.
  destruct (parseInt_integer p) as (p' & Hparse & _). handler_reduce.
  destruct (map_throwing ToString items) as [texts|] eqn:Htexts;
    handler_reduce; exact (Hgoal (mkRun _ _ [])).
Qed.

Lemma Part000_get_infos_fetches (cityId : string)
  (upstream : list (option Response)) (s : Store) :
  fetched_in_order (Part000.cityUrl cityId) Part000_weather_of upstream
    (run upstream (Part000.get_infos cityId) s).
Proof.
  unfold Part000.get_infos. rewrite run_city_lookup.
  destruct (hd None upstream) as [r1|] eqn:H1; [|only_city].
  destruct (ok r1) eqn:Hok1;
    [|destruct (status r1 =? 404) eqn:E404; only_city].
  destruct (json r1) as [cityData|] eqn:Hj1; handler_reduce; [|only_city].
  destruct (Part000_validate_city_cases cityData) as [Hvc|Hvc];
    rewrite Hvc; handler_reduce; [|only_city].
  pose proof Hvc as Hshape. apply Part000_validate_city_iff in Hshape.
  destruct Hshape as (c & lat & lon & p & items & Hc & Hlat & Hlon & Hp & Hk).
  handler_reduce.
  assert (Hgoal : forall rest : Run Reply,
    fetched_in_order (Part000.cityUrl cityId) Part000_weather_of upstream
      (after_fetch (Part000.cityUrl cityId)
         (after_fetch
            (Part000.weatherUrl (NumberToString lat) (NumberToString lon))
            (mkRun (outcome rest) (store rest) [])))).
  { intros rest. fetch_leaf. right. exists r1, cityData. eexists.
    repeat split; try eassumption. exists c, lat, lon. now repeat split. }
  destruct (hd None (tl upstream)) as [r2|] eqn:H2; handler_reduce;
    [|exact (Hgoal (mkRun _ _ []))].
  destruct (ok r2) eqn:Hok2; handler_reduce; [|exact (Hgoal (mkRun _ _ []))].
  destruct (json r2) as [weatherDataArray|] eqn:Hj2; handler_reduce;
    [|exact (Hgoal (mkRun _ _ []))].
  destruct (Part000_find_predictions_cases weatherDataArray cityId)
    as [Hfp|(today & tomorrow & Hfp & Ht & Hm)];
    rewrite Hfp; handler_reduce; [exact (Hgoal (mkRun _ _ []))|].
  destruct (map_throwing recipe_json_coerced
              (recipeStorage.getByCityId cityId s)) as [entries|] eqn:He;
    handler_reduce; [|exact (Hgoal (mkRun _ _ []))].
  unfold Part000.format_response, map_String, number. handler_reduce.
  destruct (parseInt_integer p) as (p' & Hparse & _). handler_reduce.
  destruct (map_throwing ToString items) as [texts|] eqn:Htexts;
    handler_reduce; [|exact (Hgoal (mkRun _ _ []))].
  destruct (Get_truthy today "min" Ht) as [a Ha].
  destruct (Get_truthy today "max" Ht) as [b Hb].
  destruct (Get_truthy tomorrow "min" Hm) as [c' Hc'].
  destruct (Get_truthy tomorrow "max" Hm) as [d Hd].
  handler_reduce.
  destruct (ToNumber a) as [a'|]; handler_reduce;
    [|exact (Hgoal (mkRun _ _ []))].
  destruct (ToNumber b) as [b'|]; handler_reduce;
    [|exact (Hgoal (mkRun _ _ []))].
  destruct (ToNumber c') as [c''|]; handler_reduce;
    [|exact (Hgoal (mkRun _ _ []))].
  destruct (ToNumber d) as [d'|]; handler_reduce;
    exact (Hgoal (mkRun _ _ [])).
Qed.

(** X11. The upstream requests of GET infos. Each revision asks the City
    API first, once, at its URL for the requested city. It asks nothing
    else, and the reply is not a 200, unless that answer has a status in
    200-299 and a readable body from which the weather URL can be made: in
    [src/index.js] the texts of [coordinates[0]] and [coordinates[1]]
    whatever they are, in the two other revisions the two numbers of a
    payload that passed the validation. Then the Weather API is asked once,
    at that URL, and nothing after it: a request makes at most two upstream
    requests, and a 200 reply exactly two. *)
Theorem get_infos_upstream_requests (cityId : string)
  (upstream : list (option Response)) (s : Store) :
  fetched_in_order (IndexJs.cityUrl cityId) IndexJs_weather_of upstream
    (run upstream (IndexJs.get_infos cityId) s)
  /\ fetched_in_order (Part001.insightsUrl cityId) Part001_weather_of upstream
       (run upstream (Part001.get_infos cityId) s)
  /\ fetched_in_order (Part000.cityUrl cityId) Part000_weather_of upstream
       (run upstream (Part000.get_infos cityId) s)
  /\ (forall r,
        r = run upstream (IndexJs.get_infos cityId) s
        \/ r = run upstream (Part001.get_infos cityId) s
        \/ r = run upstream (Part000.get_infos cityId) s ->
        (List.length (calls r) <= 2)%nat
        /\ forall reply, outcome r = Some reply -> code reply = 200 ->
                         List.length (calls r) = 2%nat).
Proof.
  pose proof (IndexJs_get_infos_fetches cityId upstream s) as H0.
  pose proof (Part001_get_infos_fetches cityId upstream s) as H1.
  pose proof (Part000_get_infos_fetches cityId upstream s) as H2.
  repeat split; trivial;
    destruct H as [-> | [-> | ->]];
    match goal with
    | F : fetched_in_order _ _ _ ?r |- context [calls ?r] =>
        destruct F as [[E Hcode]|(? & ? & ? & _ & _ & _ & _ & E)]; rewrite E
    end; simpl; try lia; try reflexivity;
    intros reply Hr H200; now apply Hcode in Hr.
Qed.

(** ** The weather of the city in [src/unnamed/part_000] *)

Lemma find_throwing_found {A : Type} (p : A -> option bool) (l : list A)
  (x : A) :
  find_throwing p l = Some (Some x) ->
  exists before after,
    l = (before ++ x :: after)%list
    /\ Forall (fun y => p y = Some false) before
    /\ p x = Some true.
Proof.
  induction l as [|y l IH]; simpl; [discriminate|].
  destruct (p y) as [[|]|] eqn:E; [| |discriminate].
  - intros [= <-]. now exists [], l.
  - intros H. destruct (IH H) as (before & after & -> & Hb & Hx).
    exists (y :: before), after. repeat split; [|exact Hx].
    now constructor.
Qed.

Lemma find_throwing_none {A : Type} (p : A -> option bool) (l : list A) :
  find_throwing p l = Some None <-> Forall (fun y => p y = Some false) l.
Proof.
  induction l as [|y l IH]; simpl.
  - split; [constructor|reflexivity].
  - split.
    + destruct (p y) as [[|]|] eqn:E; [discriminate| |discriminate].
      intros H. constructor; [exact E|now apply IH].
    + intros H. inversion H as [|? ? E Hl]; subst. rewrite E. now apply IH.
Qed.

Lemma property_is_true (key text : string) (v : JsVal) :
  property_is key text v = Some true <-> Get v key = Some (JStr text).
Proof.
  unfold property_is. split.
  - destruct (Get v key) as [[| | | |t| |]|]; try discriminate.
    intros [= E]. apply String.eqb_eq in E. now subst.
  - intros ->. now rewrite String.eqb_refl.
Qed.

Lemma js_find_found (p : JsVal -> option bool) (v x : JsVal) :
  js_find p v = Some x -> ToBoolean x = true ->
  exists before after,
    v = JArr (before ++ x :: after)
    /\ Forall (fun y => p y = Some false) before
    /\ p x = Some true.
Proof.
  destruct v as [| | | | |items|]; try discriminate. unfold js_find.
  destruct (find_throwing p items) as [[y|]|] eqn:E; simpl;
    [| |discriminate].
  - intros [= <-] _. apply find_throwing_found in E.
    destruct E as (before & after & -> & Hb & Hx). now exists before, after.
  - intros [= <-]. discriminate.
Qed.

(** X14. How [src/unnamed/part_000] picks the predictions. When the search
    succeeds, the weather payload is an array; the entry used is the first
    one whose [cityId] is the requested id, letter for letter, every entry
    before it having a [cityId] that differs; its [predictions] is an array
    of at least two entries; today's prediction is its first entry whose
    [when] is "today", tomorrow's its first entry whose [when] is
    "tomorrow". The search throws when the payload is not an array and when
    no entry of the array has the requested [cityId]. *)
Theorem find_predictions_first_match (weatherDataArray : JsVal)
  (cityId : string) :
  (forall today tomorrow,
     Part000.find_predictions weatherDataArray cityId = Ret (today, tomorrow) ->
     exists before entry after items,
       weatherDataArray = JArr (before ++ entry :: after)
       /\ Forall (fun e => property_is "cityId" cityId e = Some false) before
       /\ Get entry "cityId" = Some (JStr cityId)
       /\ Get entry "predictions" = Some (JArr items)
       /\ (2 <= List.length items)%nat
       /\ (exists earlier later,
             items = (earlier ++ today :: later)%list
             /\ Forall (fun e => property_is "when" "today" e = Some false)
                       earlier
             /\ Get today "when" = Some (JStr "today"))
       /\ (exists earlier later,
             items = (earlier ++ tomorrow :: later)%list
             /\ Forall (fun e => property_is "when" "tomorrow" e = Some false)
                       earlier
             /\ Get tomorrow "when" = Some (JStr "tomorrow")))
  /\ (isArray weatherDataArray = false ->
      Part000.find_predictions weatherDataArray cityId = Throw)
  /\ (forall entries,
        weatherDataArray = JArr entries ->
        Forall (fun e => property_is "cityId" cityId e = Some false) entries ->
        Part000.find_predictions weatherDataArray cityId = Throw).
Proof.
  split; [|split].
  - intros today tomorrow. unfold Part000.find_predictions.
    destruct (js_find _ weatherDataArray) as [w|] eqn:Hw; cbn [eval bind];
      [|discriminate].
    destruct (ToBoolean w) eqn:Tw; cbn [negb]; [|discriminate].
    destruct (Get w "predictions") as [p|] eqn:Hp; cbn [eval bind];
      [|discriminate].
    destruct (ToBoolean p) eqn:Tp; cbn [negb]; [|discriminate].
    destruct (Get p "length") as [len|] eqn:Hlen; cbn [eval bind];
      [|discriminate].
    destruct (js_lt len 2) as [[|]|] eqn:Hfew; cbn [eval bind];
      try discriminate.
    destruct (js_find (property_is "when" "today") p) as [t|] eqn:Ht;
      cbn [eval bind]; [|discriminate].
    destruct (js_find (property_is "when" "tomorrow") p) as [m|] eqn:Hm;
      cbn [eval bind]; [|discriminate].
    destruct (ToBoolean t) eqn:Tt; [|discriminate].
    destruct (ToBoolean m) eqn:Tm; [|discriminate].
    cbn [negb orb]. intros [= <- <-].
    destruct (js_find_found _ _ _ Hw Tw) as (before & after & -> & Hb & Hx).
    destruct (js_find_found _ _ _ Ht Tt) as (e1 & l1 & Hitems & Hb1 & Hx1).
    destruct (js_find_found _ _ _ Hm Tm) as (e2 & l2 & Hitems2 & Hb2 & Hx2).
    apply property_is_true in Hx, Hx1, Hx2.
    exists before, w, after, (e1 ++ t :: l1)%list. subst p.
    repeat split; trivial.
    + cbn [Get String.eqb Ascii.eqb Bool.eqb] in Hlen. injection Hlen as <-.
      unfold js_lt in Hfew. cbn [ToNumber option_map num_lt] in Hfew.
      injection Hfew as Hfew. apply Z.ltb_ge in Hfew. lia.
    + now exists e1, l1.
    + injection Hitems2 as Hitems2. now exists e2, l2.
  - intros Ha. unfold Part000.find_predictions.
    destruct weatherDataArray; try discriminate; reflexivity.
  - intros entries -> Hall. unfold Part000.find_predictions, js_find.
    apply find_throwing_none in Hall. now rewrite Hall.
Qed.

End GetHandlerProperties.

(** * Further examples *)

Section FurtherExamples.
#[local] Existing Instance example_host.

(** A second recipe added for "paris" gets id 2, is found under "2" and is
    listed after the first. *)
Lemma add_then_lookup_example :
  reachable example_store
  /\ recipeStorage.getById "2"
       (snd (recipeStorage.add "paris" (JStr "Add butter at the end")
               example_store))
     = Some (Recipe.make 2 (JStr "Add butter at the end") "paris")
  /\ recipeStorage.getByCityId "paris"
       (snd (recipeStorage.add "paris" (JStr "Add butter at the end")
               example_store))
     = [Recipe.make 1 (JStr "Bring garlic and oil") "paris";
        Recipe.make 2 (JStr "Add butter at the end") "paris"].
Proof.
  assert (Hreach : reachable example_store)
    by (exists [OpAdd "paris" (JStr "Bring garlic and oil")]; reflexivity).
  destruct (add_then_lookup example_store "paris"
              (JStr "Add butter at the end") Hreach)
    as (_ & Hfound & Hcity & _).
  split; [exact Hreach|]. split; [exact Hfound|exact Hcity].
Defined.

Lemma getByCityId_in_creation_order_example :
  reachable example_store
  /\ StronglySorted Z.lt
       (map Recipe.id (recipeStorage.getByCityId "paris" example_store)).
Proof.
  assert (Hreach : reachable example_store)
    by (exists [OpAdd "paris" (JStr "Bring garlic and oil")]; reflexivity).
  split; [exact Hreach|].
  exact (proj1 (proj2 (getByCityId_in_creation_order example_store "paris"
                         Hreach))).
Defined.

(** The path text " 1abc" names recipe 1. *)
Lemma id_text_is_read_leniently_example :
  recipeStorage.getById " 1abc" example_store
  = Some (Recipe.make 1 (JStr "Bring garlic and oil") "paris")
  /\ fst (recipeStorage.deleteById " 1abc" example_store) = true.
Proof.
  assert (Hreach : reachable example_store)
    by (exists [OpAdd "paris" (JStr "Bring garlic and oil")]; reflexivity).
  destruct (id_text_is_read_leniently example_store
              (Recipe.make 1 (JStr "Bring garlic and oil") "paris")
              " " "abc" Hreach (or_introl eq_refl) eq_refl eq_refl)
    as (_ & Hfound & Hdeleted & _).
  split; [exact Hfound|exact Hdeleted].
Defined.

(** GET infos of "paris" in [src/index.js] lists the stored recipe. *)
Lemma get_infos_lists_city_recipes_example :
  exists reply doc,
    outcome (run (answers example_city example_weather)
                 (IndexJs.get_infos "paris") example_store) = Some reply
    /\ code reply = 200
    /\ body reply = Some doc
    /\ Get doc "recipes"
       = Some (JArr [JObj [("id", JNum (Int 1));
                           ("content", JStr "Bring garlic and oil")]]).
Proof.
  destruct (outcome (run (answers example_city example_weather)
                         (IndexJs.get_infos "paris") example_store))
    as [reply|] eqn:E; [|discriminate E].
  assert (Hcode : code reply = 200) by (injection E as <-; reflexivity).
  destruct (proj1 (get_infos_lists_city_recipes "paris"
                     (answers example_city example_weather) example_store
                     reply Hcode) E) as (doc & Hbody & Hrecipes).
  exists reply, doc. repeat split; assumption.
Defined.

(** [src/index.js] forwards a [coordinates] that is the text "ab". *)
Lemma index_js_forwards_payload_example :
  exists reply doc,
    outcome (run (answers text_coordinates_city example_weather)
                 (IndexJs.get_infos "42") example_store) = Some reply
    /\ body reply = Some doc
    /\ Get doc "coordinates" = Some (JStr "ab").
Proof.
  destruct (outcome (run (answers text_coordinates_city example_weather)
                         (IndexJs.get_infos "42") example_store))
    as [reply|] eqn:E; [|discriminate E].
  assert (Hcode : code reply = 200) by (injection E as <-; reflexivity).
  destruct (index_js_forwards_payload "42"
              (answers text_coordinates_city example_weather) example_store
              reply E Hcode)
    as (r1 & r2 & cityData & weatherData & doc & ? & ? & ? & ?
        & H1 & _ & Hj1 & _ & _ & _ & Hbody & Hc & _).
  injection H1 as <-. injection Hj1 as <-.
  exists reply, doc. repeat split; assumption.
Defined.

(** A recipe posted for "paris" is the last of the next GET infos. *)
Lemma post_then_get_lists_recipe_example :
  reachable example_store
  /\ outcome (run city_exists
               (IndexJs.post_recipes "paris"
                  (JObj [("content", JStr "Add butter at the end")]))
               example_store)
     = Some (mkReply 201 (Some
         (JObj [("id", JNum (Int 2));
                ("content", JStr "Add butter at the end")]))).
Proof.
  assert (Hreach : reachable example_store)
    by (exists [OpAdd "paris" (JStr "Bring garlic and oil")]; reflexivity).
  split; [exact Hreach|].
  exact (proj1 (post_then_get_lists_recipe example_store "paris"
                  (JObj [("content", JStr "Add butter at the end")])
                  (JStr "Add butter at the end") city_exists
                  (answers example_city example_weather)
                  (mkResponse 200 None)
                  Hreach eq_refl eq_refl eq_refl eq_refl eq_refl eq_refl)).
Defined.

(** A content whose [length] has no number: the exception escapes. *)
Lemma post_exception_escapes_example :
  outcome (run city_exists
             (IndexJs.post_recipes "paris"
                (JObj [("content",
                        JObj [("length", JObj [("toString", JNull)])])]))
             example_store)
  = None.
Proof.
  apply (proj1 (post_exception_escapes IndexJs.cityUrl "paris"
                  (JObj [("content",
                          JObj [("length", JObj [("toString", JNull)])])])
                  city_exists example_store)).
  exists (JObj [("length", JObj [("toString", JNull)])]).
  split; [reflexivity|]. split; [reflexivity|]. left. reflexivity.
Defined.

(** The entry of "paris" comes second and its predictions are not in
    order: the search finds them. *)
Lemma find_predictions_first_match_example :
  Part000.find_predictions example_predictions "paris"
  = Ret (JObj [("when", JStr "today");
               ("min", JNum (Int 8)); ("max", JNum (Int 15))],
         JObj [("when", JStr "tomorrow");
               ("min", JNum (Int 9)); ("max", JNum (Int 17))])
  /\ exists before entry after,
       example_predictions = JArr (before ++ entry :: after)
       /\ Get entry "cityId" = Some (JStr "paris").
Proof.
  split; [reflexivity|].
  destruct (proj1 (find_predictions_first_match example_predictions "paris")
              _ _ eq_refl)
    as (before & entry & after & items & Hsplit & _ & Hcity & _).
  now exists before, entry, after.
Defined.

(** A 200 reply of [src/unnamed/part_001] asked both upstreams. *)
Lemma get_infos_upstream_requests_example :
  calls (run (answers example_city example_weather)
             (Part001.get_infos "42") example_store)
  = [Part001.insightsUrl "42"; Part001.weatherUrl "48" "2"].
Proof.
  destruct (proj1 (proj2 (get_infos_upstream_requests "42"
                            (answers example_city example_weather)
                            example_store)))
    as [[E _]|(r1 & cityData & url & H1 & _ & Hj1 & Hurl & E)].
  - discriminate E.
  - injection H1 as <-. injection Hj1 as <-.
    destruct Hurl as (lat & lon & _ & Hc & ->).
    injection Hc as <- <-. exact E.
Defined.

End FurtherExamples.
